(** * The Selenium Grid scaler of KEDA (pkg/scalers/selenium_grid_scaler.go)

    A shallow embedding of the scaler's metadata parser, of its grid query
    and of the function that turns a decoded grid status into a demand
    count, followed by the properties the specification states about them.

    Go values are modelled as follows.
    - [int64] and [int] (64 bits on the platforms KEDA is built for) are
      integers of [Z]; every arithmetic operation wraps to 64 bits.
    - [string] is [string] (a sequence of bytes), [[]byte] is [list byte].
    - A Go function returning [(T, error)] returns a pair whose second
      component is [option error], [None] standing for [nil].
    - The packages of the Go library the file calls (encoding/json,
      net/http, io/ioutil, strconv) are not part of the repository: they
      are the fields of the class [GoLibrary], and every statement holds
      for all of its instances.
    - The calls of the logger are collected in a list, which every
      function that can log returns next to its results. *)

From Stdlib Require Import ZArith Lia Bool List String Ascii DecimalString.
From Stdlib Require Import Strings.Byte DecimalPos DecimalZ.
From stdpp Require Import base option gmap strings list.
Import ListNotations.

Local Open Scope Z_scope.
Local Open Scope string_scope.

(** ** Machine integers *)

Module Int64.

Definition min_int : Z := - 2 ^ 63.
Definition max_int : Z := 2 ^ 63 - 1.
Definition modulus : Z := 2 ^ 64.

Definition in_range (z : Z) : Prop := min_int <= z <= max_int.

(** The two's-complement value of [z] truncated to 64 bits. *)
Definition wrap (z : Z) : Z := (z - min_int) mod modulus + min_int.

Definition add (a b : Z) : Z := wrap (a + b).
Definition sub (a b : Z) : Z := wrap (a - b).
(** Go's [/] on signed integers truncates toward zero. *)
Definition div (a b : Z) : Z := wrap (Z.quot a b).
(** [count++] *)
Definition incr (a : Z) : Z := add a 1.
(** The conversion [int64(i)] of an [int]. *)
Definition of_int (i : Z) : Z := wrap i.

End Int64.

(** ** Strings *)

(** [strings.HasPrefix]:
    [len(s) >= len(prefix) && s[0:len(prefix)] == prefix]. *)
Definition strings_HasPrefix (s prefix : string) : bool :=
  (String.length prefix <=? String.length s)%nat
  && String.eqb (substring 0 (String.length prefix) s) prefix.

(** The verb [%d] of [fmt.Sprintf] applied to an integer. *)
Definition fmt_d (z : Z) : string := NilZero.string_of_int (Z.to_int z).

(** [strconv.ParseBool], which accepts exactly twelve spellings. The error
    it builds is left to the caller, see [strconv_ParseBool] below. *)
Definition parseBoolValue (str : string) : option bool :=
  if existsb (String.eqb str) ["1"; "t"; "T"; "true"; "TRUE"; "True"] then Some true
  else if existsb (String.eqb str) ["0"; "f"; "F"; "false"; "FALSE"; "False"] then Some false
  else None.

(** ** Data model *)

Record capability : Type := mkCapability {
  BrowserName : string;
  BrowserVersion : string
}.

Record seleniumSession : Type := mkSeleniumSession {
  ID : string;
  Capabilities : string;
  NodeID : string
}.

Record sessionsInfo : Type := mkSessionsInfo {
  SessionQueueRequests : list string;
  Sessions : list seleniumSession
}.

Record grid : Type := mkGrid {
  MaxSession : Z
}.

Record data : Type := mkData {
  Grid : grid;
  SessionsInfo : sessionsInfo
}.

Record seleniumResponse : Type := mkSeleniumResponse {
  Data : data
}.

Record seleniumGridScalerMetadata : Type := mkMetadata {
  url : string;
  browserName : string;
  targetValue : Z;
  browserVersion : string;
  unsafeSsl : bool;
  scalerIndex : Z
}.

(** The fields of [ScalerConfig] (declared in scaler.go) that this file
    reads. *)
Record ScalerConfig : Type := mkScalerConfig {
  TriggerMetadata : gmap string string;
  ScalerIndex : Z
}.

Definition DefaultBrowserVersion : string := "latest".

(** The zero values [capability{}] and [seleniumResponse{}]. *)
Definition zero_capability : capability := mkCapability EmptyString EmptyString.
Definition zero_response : seleniumResponse :=
  mkSeleniumResponse (mkData (mkGrid 0) (mkSessionsInfo [] [])).

(** A response given by its three fields. *)
Definition snapshot (maxSession : Z) (queue : list string)
    (sessions : list seleniumSession) : seleniumResponse :=
  mkSeleniumResponse (mkData (mkGrid maxSession) (mkSessionsInfo queue sessions)).

(** A response as Go can hold it: [MaxSession] is an [int], and the two
    slices, whose lengths are [int]s, lie in one address space. *)
Definition representable (r : seleniumResponse) : Prop :=
  Int64.in_range (MaxSession (Grid (Data r)))
  /\ Z.of_nat (length (SessionQueueRequests (SessionsInfo (Data r)))
               + length (Sessions (SessionsInfo (Data r)))) <= Int64.max_int.

(** ** The Go library

    What the scaler calls outside the repository. The error values of the
    library packages form the type [lib_error]; [lib_Error] is their method
    [Error()]. A call that fills a target and returns an [error] (as
    [json.Unmarshal] does), or returns a value and an [error], is a function
    into a sum: the scaler reads the value only when the error is [nil]. *)

Class GoLibrary : Type := {
  lib_error : Type;
  lib_Error : lib_error -> string;
  (** the error of [strconv] for a function name and a rejected input *)
  strconv_syntaxError : string -> string -> lib_error;
  (** [json.Unmarshal(data, &capability)] on [capability{}] *)
  json_Unmarshal_capability : list byte -> capability + lib_error;
  (** [json.Unmarshal(data, &seleniumResponse)] on [seleniumResponse{}] *)
  json_Unmarshal_response : list byte -> seleniumResponse + lib_error;
  (** [json.Marshal] of a [map[string]string] *)
  json_Marshal : gmap string string -> list byte + lib_error;
  context : Type;
  http_Client : Type;
  http_Request : Type;
  io_ReadCloser : Type;
  (** [http.NewRequestWithContext(ctx, method, url, body)] *)
  http_NewRequestWithContext :
    context -> string -> string -> list byte -> http_Request + lib_error;
  (** [client.Do(req)]: the status code and the body of the answer *)
  http_Client_Do : http_Client -> http_Request -> (Z * io_ReadCloser) + lib_error;
  (** [ioutil.ReadAll(body)] *)
  ioutil_ReadAll : io_ReadCloser -> list byte + lib_error
}.

Definition http_StatusOK : Z := 200.

Section Scaler.

Context `{GoLibrary}.

(** A Go [error] that is not [nil]: either built here by [errors.New] or
    [fmt.Errorf] (a message and nothing else), or handed over by a
    library package. *)
Inductive error : Type :=
| errorString (msg : string)
| libError (e : lib_error).

(** The method [Error()], which the verb [%s] prints. *)
Definition Error (err : error) : string :=
  match err with
  | errorString msg => msg
  | libError e => lib_Error e
  end.

Definition errors_New (msg : string) : error := errorString msg.

(** [strconv.ParseBool] *)
Definition strconv_ParseBool (str : string) : bool * option error :=
  match parseBoolValue str with
  | Some b => (b, None)
  | None => (false, Some (libError (strconv_syntaxError "ParseBool" str)))
  end.

(** A call of [seleniumGridLog.Error(err, msg)]. *)
Record logEntry : Type := mkLogEntry {
  logErr : error;
  logMsg : string
}.

Record seleniumGridScaler : Type := mkScaler {
  metricType : string;
  metadata : seleniumGridScalerMetadata;
  client : http_Client
}.

(** *** parseSeleniumGridScalerMetadata *)

Definition parseSeleniumGridScalerMetadata (config : ScalerConfig)
    : option seleniumGridScalerMetadata * option error :=
  let targetValue := 1 in
  match TriggerMetadata config !! "url" with
  | None => (None, Some (errors_New "no selenium grid url given in metadata"))
  | Some url =>
    match TriggerMetadata config !! "browserName" with
    | None => (None, Some (errors_New "no browser name given in metadata"))
    | Some browserName =>
      let browserVersion :=
        match TriggerMetadata config !! "browserVersion" with
        | Some val => if negb (String.eqb val EmptyString) then val
                      else DefaultBrowserVersion
        | None => DefaultBrowserVersion
        end in
      match TriggerMetadata config !! "unsafeSsl" with
      | Some val =>
        match strconv_ParseBool val with
        | (_, Some err) =>
          (None, Some (errors_New ("error parsing unsafeSsl: " ++ Error err)))
        | (parsedVal, None) =>
          (Some (mkMetadata url browserName targetValue browserVersion
                            parsedVal (ScalerIndex config)), None)
        end
      | None =>
        (Some (mkMetadata url browserName targetValue browserVersion
                          false (ScalerIndex config)), None)
      end
    end
  end.

(** *** getCountFromSeleniumResponse *)

(** The state of the two loops: the counter and what was logged so far. *)
Record scan : Type := mkScan {
  count : Z;
  logged : list logEntry
}.

Definition logError (err : error) (msg : string) (st : scan) : scan :=
  mkScan (count st) (logged st ++ [mkLogEntry err msg]).

Definition countUp (st : scan) : scan :=
  mkScan (Int64.incr (count st)) (logged st).

(** The body of the loop over [sessionQueueRequests]. *)
Definition queueRequestBody (browserName browserVersion : string)
    (st : scan) (sessionQueueRequest : string) : scan :=
  match json_Unmarshal_capability (list_byte_of_string sessionQueueRequest) with
  | inl capability =>
    if String.eqb (BrowserName capability) browserName then
      if strings_HasPrefix (BrowserVersion capability) browserVersion then
        countUp st
      else if String.eqb (BrowserVersion capability) EmptyString
              && String.eqb browserVersion DefaultBrowserVersion then
        countUp st
      else st
    else st
  | inr err =>
    logError (libError err)
      ("Error when unmarshaling session queue requests: " ++ lib_Error err) st
  end.

(** The body of the loop over [sessions]. *)
Definition sessionBody (browserName browserVersion : string)
    (st : scan) (session : seleniumSession) : scan :=
  match json_Unmarshal_capability (list_byte_of_string (Capabilities session)) with
  | inl capability =>
    if String.eqb (BrowserName capability) browserName then
      if strings_HasPrefix (BrowserVersion capability) browserVersion then
        countUp st
      else if String.eqb browserVersion DefaultBrowserVersion then
        countUp st
      else st
    else st
  | inr err =>
    logError (libError err)
      ("Error when unmarshaling sessions info: " ++ lib_Error err) st
  end.

(** The two loops, one after the other, from [count = 0]: the raw count
    of matching entries (and the log). *)
Definition scanEntries (seleniumResponse : seleniumResponse)
    (browserName browserVersion : string) : scan :=
  let sessionQueueRequests :=
    SessionQueueRequests (SessionsInfo (Data seleniumResponse)) in
  let st := fold_left (queueRequestBody browserName browserVersion)
                      sessionQueueRequests (mkScan 0 []) in
  let sessions := Sessions (SessionsInfo (Data seleniumResponse)) in
  fold_left (sessionBody browserName browserVersion) sessions st.

(** The last lines: the count divided by the sessions a node takes,
    rounded up by adding [gridMaxSession - 1] first. *)
Definition normalize (seleniumResponse : seleniumResponse) (count : Z) : Z :=
  let gridMaxSession := Int64.of_int (MaxSession (Grid (Data seleniumResponse))) in
  if gridMaxSession >? 0 then
    Int64.div (Int64.sub (Int64.add count gridMaxSession) 1) gridMaxSession
  else count.

(** What [getCountFromSeleniumResponse] does once the body is decoded. *)
Definition countFromResponse (seleniumResponse : seleniumResponse)
    (browserName browserVersion : string) : Z * option error * list logEntry :=
  let st := scanEntries seleniumResponse browserName browserVersion in
  (normalize seleniumResponse (count st), None, logged st).

Definition getCountFromSeleniumResponse (b : list byte)
    (browserName browserVersion : string) : Z * option error * list logEntry :=
  match json_Unmarshal_response b with
  | inr err => (0, Some (libError err), [])
  | inl seleniumResponse =>
    countFromResponse seleniumResponse browserName browserVersion
  end.

(** The count of matching entries before it is normalized. *)
Definition rawCount (seleniumResponse : seleniumResponse)
    (browserName browserVersion : string) : Z :=
  count (scanEntries seleniumResponse browserName browserVersion).

(** *** getSessionsCount and IsActive *)

Definition statusQuery : gmap string string :=
  {[ "query" := "{ grid { maxSession }, sessionsInfo { sessionQueueRequests, sessions { id, capabilities, nodeId } } }" ]}.

(** The deferred [res.Body.Close()] gives nothing back to the function and
    is left out. *)
Definition getSessionsCount (s : seleniumGridScaler) (ctx : context)
    : Z * option error * list logEntry :=
  match json_Marshal statusQuery with
  | inr err => (-1, Some (libError err), [])
  | inl body =>
    match http_NewRequestWithContext ctx "POST" (url (metadata s)) body with
    | inr err => (-1, Some (libError err), [])
    | inl req =>
      match http_Client_Do (client s) req with
      | inr err => (-1, Some (libError err), [])
      | inl (StatusCode, Body) =>
        if negb (Z.eqb StatusCode http_StatusOK) then
          let msg := "selenium grid returned " ++ fmt_d StatusCode in
          (-1, Some (errors_New msg), [])
        else
          match ioutil_ReadAll Body with
          | inr err => (-1, Some (libError err), [])
          | inl b =>
            match getCountFromSeleniumResponse b (browserName (metadata s))
                                               (browserVersion (metadata s)) with
            | (_, Some err, log) => (-1, Some err, log)
            | (v, None, log) => (v, None, log)
            end
          end
      end
    end
  end.

Definition IsActive (s : seleniumGridScaler) (ctx : context)
    : bool * option error * list logEntry :=
  match getSessionsCount s ctx with
  | (_, Some err, log) => (false, Some err, log)
  | (v, None, log) => (v >? 0, None, log)
  end.

End Scaler.

(** ** Derived notions used by the statements *)

Section Notions.

Context `{GoLibrary}.

(** Does the body of the first loop count this request? Read off the body
    itself, run from a counter at zero. *)
Definition queueCounts (browserName browserVersion : string)
    (sessionQueueRequest : string) : bool :=
  negb (Z.eqb (count (queueRequestBody browserName browserVersion
                        (mkScan 0 []) sessionQueueRequest)) 0).

(** Does the body of the second loop count this session? *)
Definition sessionCounts (browserName browserVersion : string)
    (session : seleniumSession) : bool :=
  negb (Z.eqb (count (sessionBody browserName browserVersion
                        (mkScan 0 []) session)) 0).

(** The capability string decodes, to [capability]. *)
Definition parsesTo (raw : string) (capability : capability) : Prop :=
  json_Unmarshal_capability (list_byte_of_string raw) = inl capability.

(** The capability string does not decode. *)
Definition malformed (raw : string) : Prop :=
  exists err, json_Unmarshal_capability (list_byte_of_string raw) = inr err.

End Notions.

(** The matching rule in the words of the specification (section 4.2), to
    be compared with what the loops do. A version is a prefix match of the
    target when the target version starts it: target 96 matches entry
    96.0.1. *)
Definition spec_prefixMatch (entryVersion targetVersion : string) : Prop :=
  exists rest, entryVersion = targetVersion ++ rest.

Definition spec_queueMatch (targetName targetVersion : string)
    (entry : capability) : Prop :=
  BrowserName entry = targetName
  /\ (spec_prefixMatch (BrowserVersion entry) targetVersion
      \/ (BrowserVersion entry = EmptyString
          /\ targetVersion = DefaultBrowserVersion)).

Definition spec_sessionMatch (targetName targetVersion : string)
    (entry : capability) : Prop :=
  BrowserName entry = targetName
  /\ (spec_prefixMatch (BrowserVersion entry) targetVersion
      \/ targetVersion = DefaultBrowserVersion).

(** The ceiling of [a / b] for [b > 0], as a rational number rounded up. *)
Definition spec_ceil (a b : Z) : Z := - ((- a) / b).

(** ** A small grid to run the scaler on

    A stand-in for the Go library on a handful of texts: it renders and
    decodes the JSON texts listed here as encoding/json does, and rejects
    every other text. *)

Module Sample.

Definition dq : string := String (ascii_of_nat 34) EmptyString.
Definition bs : string := String (ascii_of_nat 92) EmptyString.

(** A JSON string literal: quotes and backslashes escaped. *)
Fixpoint escape (s : string) : string :=
  match s with
  | EmptyString => EmptyString
  | String c rest =>
    (if Ascii.eqb c (ascii_of_nat 34) || Ascii.eqb c (ascii_of_nat 92)
     then bs ++ String c EmptyString else String c EmptyString) ++ escape rest
  end.

Definition jsonString (s : string) : string := dq ++ escape s ++ dq.

Definition jsonField (key value : string) : string :=
  jsonString key ++ ":" ++ value.

Definition jsonArray (items : list string) : string :=
  "[" ++ String.concat "," items ++ "]".

(** The capability text of a request for a browser. *)
Definition capabilityJSON (name version : string) : string :=
  "{" ++ jsonField "browserName" (jsonString name) ++ ","
      ++ jsonField "browserVersion" (jsonString version) ++ "}".

Definition sessionJSON (s : seleniumSession) : string :=
  "{" ++ jsonField "id" (jsonString (ID s)) ++ ","
      ++ jsonField "capabilities" (jsonString (Capabilities s)) ++ ","
      ++ jsonField "nodeId" (jsonString (NodeID s)) ++ "}".

(** The body the grid answers the status query with. *)
Definition responseJSON (r : seleniumResponse) : string :=
  "{" ++ jsonField "data" ("{"
    ++ jsonField "grid" ("{" ++ jsonField "maxSession"
                          (fmt_d (MaxSession (Grid (Data r)))) ++ "}") ++ ","
    ++ jsonField "sessionsInfo" ("{"
      ++ jsonField "sessionQueueRequests"
           (jsonArray (map jsonString (SessionQueueRequests (SessionsInfo (Data r))))) ++ ","
      ++ jsonField "sessions"
           (jsonArray (map sessionJSON (Sessions (SessionsInfo (Data r))))) ++ "}")
    ++ "}") ++ "}".

Definition chrome96 : string := capabilityJSON "chrome" "96.0.4664.45".
Definition chromeAny : string := capabilityJSON "chrome" EmptyString.
Definition firefox91 : string := capabilityJSON "firefox" "91.0".
(** Not JSON: the keys are not quoted and the brace is not closed. *)
Definition broken : string := "{browserName: chrome".

Definition knownCapabilities : list (string * capability) :=
  [ (chrome96, mkCapability "chrome" "96.0.4664.45");
    (chromeAny, mkCapability "chrome" EmptyString);
    (firefox91, mkCapability "firefox" "91.0") ].

Definition session (id raw : string) : seleniumSession :=
  mkSeleniumSession id raw "node-1".

(** Three queued requests, one of them broken, and one running session. *)
Definition busyGrid : seleniumResponse :=
  snapshot 2 [chromeAny; broken; chrome96] [session "s1" chrome96].
(** The same grid without the broken request. *)
Definition busyGridClean : seleniumResponse :=
  snapshot 2 [chromeAny; chrome96] [session "s1" chrome96].
(** A grid where nothing decodes. *)
Definition brokenGrid : seleniumResponse :=
  snapshot 3 [broken; broken] [session "s1" broken].
(** A grid that reports the largest [int] as its sessions per node. *)
Definition hugeGrid : seleniumResponse :=
  snapshot Int64.max_int [chromeAny; chromeAny] [].
Definition hugeGridMixed : seleniumResponse :=
  snapshot Int64.max_int [chromeAny] [session "s1" chrome96; session "s2" chromeAny].

Definition knownResponses : list seleniumResponse :=
  [busyGrid; busyGridClean; brokenGrid; hugeGrid; hugeGridMixed].

Inductive sampleError : Type :=
| SyntaxError (text : string)
| NumError (func num : string)
| Refused (url : string).

Definition sampleErrorText (e : sampleError) : string :=
  match e with
  | SyntaxError text => "invalid character in " ++ text
  | NumError func num => "strconv." ++ func ++ ": parsing " ++ num ++ ": invalid syntax"
  | Refused url => "dial " ++ url ++ ": connection refused"
  end.

Definition decodeCapability (b : list byte) : capability + sampleError :=
  let text := string_of_list_byte b in
  match find (fun known => String.eqb (fst known) text) knownCapabilities with
  | Some known => inl (snd known)
  | None => inr (SyntaxError text)
  end.

Definition decodeResponse (b : list byte) : seleniumResponse + sampleError :=
  let text := string_of_list_byte b in
  match find (fun known => String.eqb (responseJSON known) text) knownResponses with
  | Some known => inl known
  | None => inr (SyntaxError text)
  end.

(** What the grid at the other end of a client does: refuse the
    connection, or answer with a status code and a body. *)
Inductive sampleGrid : Type :=
| Down
| Answers (status : Z) (body : list byte).

Definition library : GoLibrary := {|
  lib_error := sampleError;
  lib_Error := sampleErrorText;
  strconv_syntaxError := NumError;
  json_Unmarshal_capability := decodeCapability;
  json_Unmarshal_response := decodeResponse;
  json_Marshal := fun m =>
    inl (list_byte_of_string
           ("{" ++ String.concat ","
                     (map (fun kv => jsonField (fst kv) (jsonString (snd kv)))
                          (map_to_list m)) ++ "}"));
  context := unit;
  http_Client := sampleGrid;
  http_Request := string * list byte;
  io_ReadCloser := list byte;
  http_NewRequestWithContext := fun _ _ url body => inl (url, body);
  http_Client_Do := fun grid req =>
    match grid with
    | Down => inr (Refused (fst req))
    | Answers status body => inl (status, body)
    end;
  ioutil_ReadAll := fun body => inl body
|}.

Definition body (r : seleniumResponse) : list byte :=
  list_byte_of_string (responseJSON r).

Definition scaler (version : string) (grid : sampleGrid)
    : @seleniumGridScaler library :=
  @mkScaler library "AverageValue"
    (mkMetadata "http://grid:4444/graphql" "chrome" 1 version false 0) grid.

End Sample.

(** ** The rest of the scaler

    [NewSeleniumGridScaler] and [GetMetrics] call functions of KEDA and of
    the Kubernetes libraries that are declared outside this file; they are
    the fields of a second class. *)

Class KedaEnvironment `{GoLibrary} : Type := {
  (** [time.Duration], [metav1.Time], [resource.Quantity],
      [labels.Selector] *)
  time_Duration : Type;
  metav1_Time : Type;
  resource_Quantity : Type;
  labels_Selector : Type;
  (** [GetMetricTargetType(config)], declared in scaler.go *)
  GetMetricTargetType : ScalerConfig -> string * option error;
  (** [kedautil.CreateHTTPClient(timeout, unsafeSsl)] *)
  kedautil_CreateHTTPClient : time_Duration -> bool -> http_Client;
  (** [*resource.NewQuantity(v, resource.DecimalSI)] *)
  resource_NewQuantity_DecimalSI : Z -> resource_Quantity;
  (** [metav1.Now()] at the one place the scaler reads the clock *)
  metav1_Now : metav1_Time
}.

Section ScalerInterface.

Context `{KedaEnvironment}.

Record ExternalMetricValue : Type := mkExternalMetricValue {
  MetricName : string;
  Value : resource_Quantity;
  Timestamp : metav1_Time
}.

(** [NewSeleniumGridScaler]. The field [config.GlobalHTTPTimeout], which
    the record [ScalerConfig] above does not keep, is passed next to the
    configuration. The outer [None] stands for the run-time panic of
    reading [meta.unsafeSsl] through a nil pointer. *)
Definition NewSeleniumGridScaler (config : ScalerConfig)
    (GlobalHTTPTimeout : time_Duration)
    : option (option seleniumGridScaler * option error) :=
  match GetMetricTargetType config with
  | (_, Some err) =>
    Some (None, Some (errors_New ("error getting scaler metric type: " ++ Error err)))
  | (metricType, None) =>
    match parseSeleniumGridScalerMetadata config with
    | (_, Some err) =>
      Some (None,
            Some (errors_New ("error parsing selenium grid metadata: " ++ Error err)))
    | (None, None) => None
    | (Some meta, None) =>
      let httpClient := kedautil_CreateHTTPClient GlobalHTTPTimeout (unsafeSsl meta) in
      Some (Some (mkScaler metricType meta httpClient), None)
    end
  end.

(** [Close]: nothing to clean up. *)
Definition Close (s : seleniumGridScaler) (ctx : context) : option error := None.

Definition GetMetrics (s : seleniumGridScaler) (ctx : context)
    (metricName : string) (metricSelector : labels_Selector)
    : list ExternalMetricValue * option error * list logEntry :=
  match getSessionsCount s ctx with
  | (_, Some err, log) =>
    ([], Some (errors_New ("error requesting selenium grid endpoint: " ++ Error err)), log)
  | (v, None, log) =>
    let metric :=
      mkExternalMetricValue metricName (resource_NewQuantity_DecimalSI v) metav1_Now in
    (([] ++ [metric])%list, None, log)
  end.

End ScalerInterface.

Section MoreNotions.

Context `{GoLibrary}.

(** The error encoding/json gives for a capability string, if any. *)
Definition decodeFailure (raw : string) : option lib_error :=
  match json_Unmarshal_capability (list_byte_of_string raw) with
  | inl _ => None
  | inr err => Some err
  end.

(** The errors of the capability strings of a list that do not decode, in
    the order of the list. *)
Definition decodeFailures (raws : list string) : list lib_error :=
  flat_map (fun raw => match decodeFailure raw with
                       | Some err => [err]
                       | None => []
                       end) raws.

End MoreNotions.

(** A second sample: the KEDA side of the small grid above. The metric
    type is always given, and a client reaches the busy grid when it was
    asked to skip the certificate check and finds the grid down
    otherwise. *)
Module SampleKeda.

Definition client (unsafe : bool) : @http_Client Sample.library :=
  if unsafe then Sample.Answers 200 (Sample.body Sample.busyGrid)
  else Sample.Down.

Definition environment : @KedaEnvironment Sample.library := {|
  time_Duration := Z;
  metav1_Time := Z;
  resource_Quantity := Z;
  labels_Selector := unit;
  GetMetricTargetType := fun _ => ("AverageValue", None);
  kedautil_CreateHTTPClient := fun _ unsafe => client unsafe;
  resource_NewQuantity_DecimalSI := fun v => v;
  metav1_Now := 1635724800
|}.

(** An environment in which no metric type is accepted. *)
Definition strictEnvironment : @KedaEnvironment Sample.library := {|
  time_Duration := Z;
  metav1_Time := Z;
  resource_Quantity := Z;
  labels_Selector := unit;
  GetMetricTargetType := fun _ =>
    (EmptyString, Some (@errors_New Sample.library "unsupported metric type"));
  kedautil_CreateHTTPClient := fun _ _ => client false;
  resource_NewQuantity_DecimalSI := fun v => v;
  metav1_Now := 1635724800
|}.

Definition config (entries : gmap string string) : ScalerConfig :=
  mkScalerConfig entries 3.

Definition gridURL : string := "http://grid:4444/graphql".

End SampleKeda.

(** * Properties *)

(** ** Arithmetic on 64 bits *)

Module Int64Facts.

Import Int64.

Lemma wrap_in_range (z : Z) : in_range z -> wrap z = z.
Proof.
  unfold in_range, wrap, min_int, max_int, modulus. intros Hz.
  rewrite Z.mod_small; lia.
Qed.

Lemma wrap_range (z : Z) : in_range (wrap z).
Proof.
  unfold in_range, wrap, min_int, max_int, modulus.
  pose proof (Z.mod_pos_bound (z - - 2 ^ 63) (2 ^ 64) ltac:(lia)). lia.
Qed.

Lemma wrap_add_l (a b : Z) : wrap (wrap a + b) = wrap (a + b).
Proof.
  unfold wrap. f_equal.
  replace ((a - min_int) mod modulus + min_int + b - min_int)
    with ((a - min_int) mod modulus + b) by lia.
  rewrite Zplus_mod_idemp_l. f_equal. lia.
Qed.

Lemma incr_iter (a : Z) (n : nat) :
  Nat.iter n incr (wrap a) = wrap (a + Z.of_nat n).
Proof.
  induction n as [|n IH].
  - simpl. f_equal. lia.
  - rewrite Nat.iter_succ, IH. unfold incr, add.
    rewrite wrap_add_l. f_equal. lia.
Qed.

Lemma incr_neq (a : Z) : in_range a -> incr a <> a.
Proof.
  unfold incr, add, in_range, wrap, min_int, max_int, modulus. intros Ha Heq.
  destruct (Z.eq_dec a (2 ^ 63 - 1)) as [->|Hne].
  - vm_compute in Heq. discriminate.
  - rewrite Z.mod_small in Heq; lia.
Qed.

(** Without overflow the last lines of the function round the quotient
    up. *)
Lemma div_round_up (c g : Z) :
  0 <= c -> 0 < g -> c + g - 1 <= max_int ->
  div (sub (add c g) 1) g = spec_ceil c g.
Proof.
  intros Hc Hg Hfit. unfold div, sub, add.
  assert (Hmax : max_int = 2 ^ 63 - 1) by reflexivity.
  assert (Hmin : min_int = - 2 ^ 63) by reflexivity.
  replace (wrap (c + g) - 1) with (wrap (c + g) + - 1) by lia.
  rewrite wrap_add_l.
  rewrite (wrap_in_range (c + g + - 1)) by (unfold in_range; lia).
  replace (c + g + - 1) with (c + g - 1) by lia.
  rewrite Z.quot_div_nonneg by lia.
  assert (Hceil : (c + g - 1) / g = spec_ceil c g).
  { unfold spec_ceil.
    pose proof (Z.div_mod (c + g - 1) g ltac:(lia)) as E1.
    pose proof (Z.mod_pos_bound (c + g - 1) g Hg) as B1.
    pose proof (Z.div_mod (- c) g ltac:(lia)) as E2.
    pose proof (Z.mod_pos_bound (- c) g Hg) as B2.
    nia. }
  rewrite Hceil. apply wrap_in_range.
  unfold in_range. rewrite <- Hceil.
  split.
  - pose proof (Z.div_pos (c + g - 1) g ltac:(lia) Hg). lia.
  - pose proof (Z.div_le_upper_bound (c + g - 1) g max_int Hg). nia.
Qed.

Lemma spec_ceil_bounds (c g : Z) :
  0 <= c -> 0 < g -> 0 <= spec_ceil c g <= c.
Proof.
  intros Hc Hg. unfold spec_ceil.
  pose proof (Z.div_mod (- c) g ltac:(lia)) as E.
  pose proof (Z.mod_pos_bound (- c) g Hg) as B.
  nia.
Qed.

End Int64Facts.

(** ** Strings *)

Lemma substring_append (p rest : string) :
  substring 0 (String.length p) (p ++ rest) = p.
Proof.
  induction p as [|c p IH]; simpl.
  - destruct rest; reflexivity.
  - now rewrite IH.
Qed.

Lemma length_append (p rest : string) :
  String.length (p ++ rest) = (String.length p + String.length rest)%nat.
Proof. induction p as [|c p IH]; simpl; [reflexivity | now rewrite IH]. Qed.

Lemma substring_split (n : nat) (s : string) :
  (n <= String.length s)%nat ->
  exists rest, s = substring 0 n s ++ rest.
Proof.
  revert s. induction n as [|n IH]; intros s Hn.
  - exists s. destruct s; reflexivity.
  - destruct s as [|c s]; simpl in Hn; [lia|].
    destruct (IH s ltac:(lia)) as [rest Hrest].
    exists rest.
    change (String c s = String c (substring 0 n s ++ rest)).
    now f_equal.
Qed.

(** [strings.HasPrefix] decides the prefix match of the specification. *)
Lemma strings_HasPrefix_spec (s prefix : string) :
  strings_HasPrefix s prefix = true <-> spec_prefixMatch s prefix.
Proof.
  unfold strings_HasPrefix, spec_prefixMatch. split.
  - intros Hb. apply andb_true_iff in Hb as [Hlen Heq].
    apply Nat.leb_le in Hlen. apply String.eqb_eq in Heq.
    destruct (substring_split (String.length prefix) s Hlen) as [rest Hrest].
    exists rest. now rewrite Heq in Hrest.
  - intros [rest ->]. apply andb_true_iff. split.
    + apply Nat.leb_le. rewrite length_append. lia.
    + apply String.eqb_eq, substring_append.
Qed.

Lemma append_inj_l (p a b : string) : p ++ a = p ++ b -> a = b.
Proof.
  induction p as [|c p IH]; simpl; intros Heq; [assumption|].
  injection Heq as Heq. now apply IH.
Qed.

Lemma fmt_d_inj (a b : Z) : fmt_d a = fmt_d b -> a = b.
Proof.
  unfold fmt_d. intros Heq.
  assert (Hnn : forall z, Z.to_int z <> Decimal.Pos Decimal.Nil
                          /\ Z.to_int z <> Decimal.Neg Decimal.Nil).
  { intros [|p|p]; simpl; split; try discriminate;
      intros [= Hp]; now apply DecimalPos.Unsigned.to_uint_nonnil in Hp. }
  pose proof (NilZero.isi (Z.to_int a) (proj1 (Hnn a)) (proj2 (Hnn a))) as Ha.
  pose proof (NilZero.isi (Z.to_int b) (proj1 (Hnn b)) (proj2 (Hnn b))) as Hb.
  rewrite Heq, Hb in Ha. injection Ha as Ha.
  rewrite <- (DecimalZ.of_to a), <- (DecimalZ.of_to b). now rewrite Ha.
Qed.

(** ** The two loops *)

Section Loops.

Context `{GoLibrary}.

Variables browserName browserVersion : string.

Lemma incr_zero_nonzero : Z.eqb (Int64.incr 0) 0 = false.
Proof. reflexivity. Qed.

(** A request moves the counter by one when it counts, and leaves it alone
    otherwise, whatever the counter and the log are. *)
Lemma queueRequestBody_count (st : scan) (sessionQueueRequest : string) :
  count (queueRequestBody browserName browserVersion st sessionQueueRequest)
  = if queueCounts browserName browserVersion sessionQueueRequest
    then Int64.incr (count st) else count st.
Proof.
  unfold queueCounts, queueRequestBody.
  destruct (json_Unmarshal_capability _) as [capability|err]; [|reflexivity].
  destruct (String.eqb (BrowserName capability) browserName); [|reflexivity].
  destruct (strings_HasPrefix _ _); [reflexivity|].
  destruct (_ && _); reflexivity.
Qed.

Lemma sessionBody_count (st : scan) (session : seleniumSession) :
  count (sessionBody browserName browserVersion st session)
  = if sessionCounts browserName browserVersion session
    then Int64.incr (count st) else count st.
Proof.
  unfold sessionCounts, sessionBody.
  destruct (json_Unmarshal_capability _) as [capability|err]; [|reflexivity].
  destruct (String.eqb (BrowserName capability) browserName); [|reflexivity].
  destruct (strings_HasPrefix _ _); [reflexivity|].
  destruct (String.eqb browserVersion DefaultBrowserVersion); reflexivity.
Qed.

(** A loop whose body bumps the counter exactly on the entries [hit]
    selects has bumped it once per selected entry at its end. *)
Lemma loop_count {A : Type} (body : scan -> A -> scan) (hit : A -> bool) :
  (forall st a, count (body st a)
                = if hit a then Int64.incr (count st) else count st) ->
  forall entries st,
    count (fold_left body entries st)
    = Nat.iter (length (List.filter hit entries)) Int64.incr (count st).
Proof.
  intros Hbody entries. induction entries as [|a entries IH]; intros st.
  - reflexivity.
  - cbn [fold_left List.filter]. rewrite IH, Hbody.
    destruct (hit a); [|reflexivity].
    cbn [length]. now rewrite Nat.iter_succ_r.
Qed.

Lemma rawCount_wrap (maxSession : Z) (queue : list string)
    (sessions : list seleniumSession) :
  rawCount (snapshot maxSession queue sessions) browserName browserVersion
  = Int64.wrap
      (Z.of_nat (length (List.filter (queueCounts browserName browserVersion) queue)
                 + length (List.filter (sessionCounts browserName browserVersion) sessions))).
Proof.
  unfold rawCount, scanEntries. cbn [snapshot Data SessionsInfo SessionQueueRequests Sessions].
  rewrite (loop_count _ _ sessionBody_count).
  rewrite (loop_count _ _ queueRequestBody_count).
  cbn [count]. change 0 with (Int64.wrap 0) at 1.
  rewrite !Int64Facts.incr_iter. f_equal. lia.
Qed.

(** On a response Go can hold the raw count is the number of entries the
    two loops count: the counter does not wrap. *)
Lemma rawCount_hits (maxSession : Z) (queue : list string)
    (sessions : list seleniumSession) :
  representable (snapshot maxSession queue sessions) ->
  rawCount (snapshot maxSession queue sessions) browserName browserVersion
  = Z.of_nat (length (List.filter (queueCounts browserName browserVersion) queue)
              + length (List.filter (sessionCounts browserName browserVersion) sessions)).
Proof.
  intros [_ Hlen]. cbn in Hlen. rewrite rawCount_wrap.
  apply Int64Facts.wrap_in_range.
  pose proof (List.filter_length_le (queueCounts browserName browserVersion) queue).
  pose proof (List.filter_length_le (sessionCounts browserName browserVersion) sessions).
  unfold Int64.in_range. change Int64.min_int with (- 2 ^ 63). lia.
Qed.

(** The first loop counts a decoded request exactly when it matches by the
    rule for queued requests. *)
Lemma queueCounts_spec (sessionQueueRequest : string) (capability : capability) :
  parsesTo sessionQueueRequest capability ->
  queueCounts browserName browserVersion sessionQueueRequest = true
  <-> spec_queueMatch browserName browserVersion capability.
Proof.
  unfold parsesTo, queueCounts, queueRequestBody, spec_queueMatch. intros ->.
  destruct (String.eqb_spec (BrowserName capability) browserName) as [Hname|Hname];
    [|cbn; split; [discriminate | tauto]].
  destruct (strings_HasPrefix _ _) eqn:Hprefix.
  - apply strings_HasPrefix_spec in Hprefix. cbn. tauto.
  - assert (Hno : ~ spec_prefixMatch (BrowserVersion capability) browserVersion).
    { rewrite <- strings_HasPrefix_spec. congruence. }
    destruct (String.eqb_spec (BrowserVersion capability) EmptyString) as [Hempty|Hempty];
      destruct (String.eqb_spec browserVersion DefaultBrowserVersion) as [Hlatest|Hlatest];
      cbn; split; try discriminate; try tauto.
Qed.

(** The second loop counts a decoded session exactly when it matches by
    the rule for active sessions. *)
Lemma sessionCounts_spec (session : seleniumSession) (capability : capability) :
  parsesTo (Capabilities session) capability ->
  sessionCounts browserName browserVersion session = true
  <-> spec_sessionMatch browserName browserVersion capability.
Proof.
  unfold parsesTo, sessionCounts, sessionBody, spec_sessionMatch. intros ->.
  destruct (String.eqb_spec (BrowserName capability) browserName) as [Hname|Hname];
    [|cbn; split; [discriminate | tauto]].
  destruct (strings_HasPrefix _ _) eqn:Hprefix.
  - apply strings_HasPrefix_spec in Hprefix. cbn. tauto.
  - assert (Hno : ~ spec_prefixMatch (BrowserVersion capability) browserVersion).
    { rewrite <- strings_HasPrefix_spec. congruence. }
    destruct (String.eqb_spec browserVersion DefaultBrowserVersion) as [Hlatest|Hlatest];
      cbn; split; try discriminate; try tauto.
Qed.

(** An entry that does not decode is not counted. *)
Lemma queueCounts_malformed (sessionQueueRequest : string) :
  malformed sessionQueueRequest ->
  queueCounts browserName browserVersion sessionQueueRequest = false.
Proof. unfold malformed, queueCounts, queueRequestBody. now intros [err ->]. Qed.

Lemma sessionCounts_malformed (session : seleniumSession) :
  malformed (Capabilities session) ->
  sessionCounts browserName browserVersion session = false.
Proof. unfold malformed, sessionCounts, sessionBody. now intros [err ->]. Qed.

Lemma representable_shorter (maxSession : Z) (queue queue' : list string)
    (sessions sessions' : list seleniumSession) :
  (length queue' <= length queue)%nat ->
  (length sessions' <= length sessions)%nat ->
  representable (snapshot maxSession queue sessions) ->
  representable (snapshot maxSession queue' sessions').
Proof.
  unfold representable. cbn. intros Hq Hs [Hmax Hlen]. split; [assumption | lia].
Qed.

End Loops.

(** ** The function on a decoded body *)

Ltac fits :=
  unfold representable, Int64.in_range; repeat split; vm_compute; discriminate.

(** Once the body decodes, the function returns the normalized raw count
    and no error. *)
Lemma getCountFromSeleniumResponse_decoded `{GoLibrary} (b : list byte)
    (seleniumResponse : seleniumResponse) (browserName browserVersion : string) :
  json_Unmarshal_response b = inl seleniumResponse ->
  getCountFromSeleniumResponse b browserName browserVersion
  = (normalize seleniumResponse (rawCount seleniumResponse browserName browserVersion),
     None,
     logged (scanEntries seleniumResponse browserName browserVersion)).
Proof. unfold getCountFromSeleniumResponse. now intros ->. Qed.

Lemma filter_middle {A : Type} (hit : A -> bool) (before after : list A) (a : A) :
  length (List.filter hit (before ++ a :: after))
  = (length (List.filter hit (before ++ after)) + (if hit a then 1 else 0))%nat.
Proof.
  rewrite !List.filter_app, !List.length_app. cbn [List.filter].
  destruct (hit a); cbn [length]; lia.
Qed.

(** C1. Queued-request matching rule: a queued request whose capability
    string decodes is counted toward the raw count (the count with the
    request is the count without it plus one) if and only if its
    browserName equals the target name and either the target version is a
    prefix of its browserVersion, or its browserVersion is empty and the
    target version is the default, latest; otherwise the raw count is the
    one without the request. The function returns that raw count
    normalized. *)
Theorem queued_request_counted_iff_match `{GoLibrary} (b : list byte)
    (browserName browserVersion : string) (maxSession : Z)
    (before after : list string) (sessions : list seleniumSession)
    (sessionQueueRequest : string) (capability : capability) :
  json_Unmarshal_response b
  = inl (snapshot maxSession (before ++ sessionQueueRequest :: after) sessions) ->
  representable (snapshot maxSession (before ++ sessionQueueRequest :: after) sessions) ->
  parsesTo sessionQueueRequest capability ->
  let response := snapshot maxSession (before ++ sessionQueueRequest :: after) sessions in
  let counted := rawCount response browserName browserVersion in
  let without :=
    rawCount (snapshot maxSession (before ++ after) sessions) browserName browserVersion in
  (spec_queueMatch browserName browserVersion capability <-> counted = without + 1)
  /\ (~ spec_queueMatch browserName browserVersion capability <-> counted = without)
  /\ fst (getCountFromSeleniumResponse b browserName browserVersion)
     = (normalize response counted, None).
Proof.
  intros Hbody Hfits Hparses response counted without.
  assert (Hfits' : representable (snapshot maxSession (before ++ after) sessions)).
  { revert Hfits. apply representable_shorter; [|lia].
    rewrite !List.length_app. cbn [length]. lia. }
  assert (Hcounted : counted
    = without + (if queueCounts browserName browserVersion sessionQueueRequest
                 then 1 else 0)).
  { unfold counted, without, response.
    rewrite !rawCount_hits by assumption. rewrite filter_middle.
    destruct (queueCounts _ _ _); lia. }
  pose proof (queueCounts_spec browserName browserVersion _ _ Hparses) as Hspec.
  split; [|split].
  - rewrite <- Hspec, Hcounted. destruct (queueCounts _ _ _); split; try lia; try discriminate; reflexivity.
  - rewrite <- Hspec, Hcounted. destruct (queueCounts _ _ _); split; try lia; try discriminate; try congruence.
  - now rewrite (getCountFromSeleniumResponse_decoded _ _ _ _ Hbody).
Qed.

(** C2. Active-session matching rule: an active session whose capability
    string decodes is counted if and only if its browserName equals the
    target name and either the target version is a prefix of its
    browserVersion, or the target version is the default, latest, whatever
    the session's browserVersion is. *)
Theorem active_session_counted_iff_match `{GoLibrary} (b : list byte)
    (browserName browserVersion : string) (maxSession : Z)
    (queue : list string) (before after : list seleniumSession)
    (session : seleniumSession) (capability : capability) :
  json_Unmarshal_response b
  = inl (snapshot maxSession queue (before ++ session :: after)) ->
  representable (snapshot maxSession queue (before ++ session :: after)) ->
  parsesTo (Capabilities session) capability ->
  let response := snapshot maxSession queue (before ++ session :: after) in
  let counted := rawCount response browserName browserVersion in
  let without :=
    rawCount (snapshot maxSession queue (before ++ after)) browserName browserVersion in
  (spec_sessionMatch browserName browserVersion capability <-> counted = without + 1)
  /\ (~ spec_sessionMatch browserName browserVersion capability <-> counted = without)
  /\ fst (getCountFromSeleniumResponse b browserName browserVersion)
     = (normalize response counted, None).
Proof.
  intros Hbody Hfits Hparses response counted without.
  assert (Hfits' : representable (snapshot maxSession queue (before ++ after))).
  { revert Hfits. apply representable_shorter; [lia|].
    rewrite !List.length_app. cbn [length]. lia. }
  assert (Hcounted : counted
    = without + (if sessionCounts browserName browserVersion session then 1 else 0)).
  { unfold counted, without, response.
    rewrite !rawCount_hits by assumption. rewrite filter_middle.
    destruct (sessionCounts _ _ _); lia. }
  pose proof (sessionCounts_spec browserName browserVersion _ _ Hparses) as Hspec.
  split; [|split].
  - rewrite <- Hspec, Hcounted. destruct (sessionCounts _ _ _); split; try lia; try discriminate; reflexivity.
  - rewrite <- Hspec, Hcounted. destruct (sessionCounts _ _ _); split; try lia; try discriminate; try congruence.
  - now rewrite (getCountFromSeleniumResponse_decoded _ _ _ _ Hbody).
Qed.

(** On the sample grid, asked for chrome at latest: the queued request for
    chrome 96.0.4664.45 decodes and is weighed by the rule. *)
Lemma queued_request_counted_iff_match_witness :
  @json_Unmarshal_response Sample.library (Sample.body Sample.busyGrid)
  = inl (snapshot 2 ([Sample.chromeAny; Sample.broken] ++ Sample.chrome96 :: [])
                  [Sample.session "s1" Sample.chrome96])
  /\ representable (snapshot 2 ([Sample.chromeAny; Sample.broken] ++ Sample.chrome96 :: [])
                             [Sample.session "s1" Sample.chrome96])
  /\ @parsesTo Sample.library Sample.chrome96 (mkCapability "chrome" "96.0.4664.45")
  /\ ((spec_queueMatch "chrome" "latest" (mkCapability "chrome" "96.0.4664.45")
       <-> @rawCount Sample.library
             (snapshot 2 ([Sample.chromeAny; Sample.broken] ++ Sample.chrome96 :: [])
                       [Sample.session "s1" Sample.chrome96]) "chrome" "latest"
           = @rawCount Sample.library
               (snapshot 2 ([Sample.chromeAny; Sample.broken] ++ [])
                         [Sample.session "s1" Sample.chrome96]) "chrome" "latest" + 1)
      /\ (~ spec_queueMatch "chrome" "latest" (mkCapability "chrome" "96.0.4664.45")
          <-> @rawCount Sample.library
                (snapshot 2 ([Sample.chromeAny; Sample.broken] ++ Sample.chrome96 :: [])
                          [Sample.session "s1" Sample.chrome96]) "chrome" "latest"
              = @rawCount Sample.library
                  (snapshot 2 ([Sample.chromeAny; Sample.broken] ++ [])
                            [Sample.session "s1" Sample.chrome96]) "chrome" "latest")
      /\ fst (@getCountFromSeleniumResponse Sample.library
                (Sample.body Sample.busyGrid) "chrome" "latest")
         = (normalize
              (snapshot 2 ([Sample.chromeAny; Sample.broken] ++ Sample.chrome96 :: [])
                        [Sample.session "s1" Sample.chrome96])
              (@rawCount Sample.library
                 (snapshot 2 ([Sample.chromeAny; Sample.broken] ++ Sample.chrome96 :: [])
                           [Sample.session "s1" Sample.chrome96]) "chrome" "latest"),
            None)).
Proof.
  assert (Hbody : @json_Unmarshal_response Sample.library (Sample.body Sample.busyGrid)
                  = inl (snapshot 2 ([Sample.chromeAny; Sample.broken] ++ Sample.chrome96 :: [])
                                  [Sample.session "s1" Sample.chrome96]))
    by (vm_compute; reflexivity).
  assert (Hfits : representable
                    (snapshot 2 ([Sample.chromeAny; Sample.broken] ++ Sample.chrome96 :: [])
                              [Sample.session "s1" Sample.chrome96]))
    by fits.
  assert (Hparses : @parsesTo Sample.library Sample.chrome96
                      (mkCapability "chrome" "96.0.4664.45"))
    by (vm_compute; reflexivity).
  exact (conj Hbody (conj Hfits (conj Hparses
    (@queued_request_counted_iff_match Sample.library _ "chrome" "latest" _ _ _ _ _ _
       Hbody Hfits Hparses)))).
Defined.

(** On the sample grid, asked for chrome at latest: the running session on
    chrome 96.0.4664.45 decodes and is weighed by the rule. *)
Lemma active_session_counted_iff_match_witness :
  @json_Unmarshal_response Sample.library (Sample.body Sample.busyGrid)
  = inl (snapshot 2 [Sample.chromeAny; Sample.broken; Sample.chrome96]
                  ([] ++ Sample.session "s1" Sample.chrome96 :: []))
  /\ representable (snapshot 2 [Sample.chromeAny; Sample.broken; Sample.chrome96]
                             ([] ++ Sample.session "s1" Sample.chrome96 :: []))
  /\ @parsesTo Sample.library (Capabilities (Sample.session "s1" Sample.chrome96))
       (mkCapability "chrome" "96.0.4664.45")
  /\ ((spec_sessionMatch "chrome" "latest" (mkCapability "chrome" "96.0.4664.45")
       <-> @rawCount Sample.library
             (snapshot 2 [Sample.chromeAny; Sample.broken; Sample.chrome96]
                       ([] ++ Sample.session "s1" Sample.chrome96 :: [])) "chrome" "latest"
           = @rawCount Sample.library
               (snapshot 2 [Sample.chromeAny; Sample.broken; Sample.chrome96] ([] ++ []))
               "chrome" "latest" + 1)
      /\ (~ spec_sessionMatch "chrome" "latest" (mkCapability "chrome" "96.0.4664.45")
          <-> @rawCount Sample.library
                (snapshot 2 [Sample.chromeAny; Sample.broken; Sample.chrome96]
                          ([] ++ Sample.session "s1" Sample.chrome96 :: [])) "chrome" "latest"
              = @rawCount Sample.library
                  (snapshot 2 [Sample.chromeAny; Sample.broken; Sample.chrome96] ([] ++ []))
                  "chrome" "latest")
      /\ fst (@getCountFromSeleniumResponse Sample.library
                (Sample.body Sample.busyGrid) "chrome" "latest")
         = (normalize
              (snapshot 2 [Sample.chromeAny; Sample.broken; Sample.chrome96]
                        ([] ++ Sample.session "s1" Sample.chrome96 :: []))
              (@rawCount Sample.library
                 (snapshot 2 [Sample.chromeAny; Sample.broken; Sample.chrome96]
                           ([] ++ Sample.session "s1" Sample.chrome96 :: []))
                 "chrome" "latest"),
            None)).
Proof.
  assert (Hbody : @json_Unmarshal_response Sample.library (Sample.body Sample.busyGrid)
                  = inl (snapshot 2 [Sample.chromeAny; Sample.broken; Sample.chrome96]
                                  ([] ++ Sample.session "s1" Sample.chrome96 :: [])))
    by (vm_compute; reflexivity).
  assert (Hfits : representable
                    (snapshot 2 [Sample.chromeAny; Sample.broken; Sample.chrome96]
                              ([] ++ Sample.session "s1" Sample.chrome96 :: [])))
    by fits.
  assert (Hparses : @parsesTo Sample.library
                      (Capabilities (Sample.session "s1" Sample.chrome96))
                      (mkCapability "chrome" "96.0.4664.45"))
    by (vm_compute; reflexivity).
  exact (conj Hbody (conj Hfits (conj Hparses
    (@active_session_counted_iff_match Sample.library _ "chrome" "latest" _ _ _ _ _ _
       Hbody Hfits Hparses)))).
Defined.

(** The two rules differ on one kind of entry: a decoded entry of the
    target's name whose version is not empty and does not start with the
    target version, when the target version is latest. A session of that
    kind is counted, a queued request is not. *)
Lemma fallback_asymmetry `{GoLibrary} (browserName : string) (raw : string)
    (session : seleniumSession) (capability : capability) :
  parsesTo raw capability ->
  Capabilities session = raw ->
  BrowserName capability = browserName ->
  BrowserVersion capability <> EmptyString ->
  ~ spec_prefixMatch (BrowserVersion capability) DefaultBrowserVersion ->
  sessionCounts browserName DefaultBrowserVersion session = true
  /\ queueCounts browserName DefaultBrowserVersion raw = false.
Proof.
  intros Hparses Hcaps Hname Hversion Hprefix. split.
  - apply (sessionCounts_spec _ _ _ capability); [now rewrite Hcaps|].
    split; [assumption | now right].
  - apply not_true_is_false. intros Hcounts.
    apply (queueCounts_spec _ _ _ capability Hparses) in Hcounts as [_ [Hp|[He _]]];
      contradiction.
Qed.

(** ** Normalization *)

(** With no capacity reported the count is left as it is. *)
Lemma normalize_unknown_capacity (seleniumResponse : seleniumResponse) (count : Z) :
  Int64.of_int (MaxSession (Grid (Data seleniumResponse))) <= 0 ->
  normalize seleniumResponse count = count.
Proof.
  intros Hmax. unfold normalize.
  destruct (Z.gtb_spec (Int64.of_int (MaxSession (Grid (Data seleniumResponse)))) 0);
    [lia | reflexivity].
Qed.

(** As long as [count + gridMaxSession - 1] fits in 64 bits, the count is
    divided by the capacity and rounded up. *)
Lemma normalize_round_up (seleniumResponse : seleniumResponse) (count : Z) :
  let gridMaxSession := MaxSession (Grid (Data seleniumResponse)) in
  Int64.in_range gridMaxSession -> 0 < gridMaxSession -> 0 <= count ->
  count + gridMaxSession - 1 <= Int64.max_int ->
  normalize seleniumResponse count = spec_ceil count gridMaxSession
  /\ spec_ceil count gridMaxSession = (count + gridMaxSession - 1) / gridMaxSession.
Proof.
  intros gridMaxSession Hrange Hpos Hcount Hfit. unfold normalize.
  fold gridMaxSession. unfold Int64.of_int.
  rewrite (Int64Facts.wrap_in_range gridMaxSession Hrange).
  destruct (Z.gtb_spec gridMaxSession 0); [|lia].
  split; [now apply Int64Facts.div_round_up|].
  unfold spec_ceil.
  pose proof (Z.div_mod (count + gridMaxSession - 1) gridMaxSession ltac:(lia)) as E1.
  pose proof (Z.mod_pos_bound (count + gridMaxSession - 1) gridMaxSession Hpos) as B1.
  pose proof (Z.div_mod (- count) gridMaxSession ltac:(lia)) as E2.
  pose proof (Z.mod_pos_bound (- count) gridMaxSession Hpos) as B2.
  nia.
Qed.

(** A count of zero stays zero, whatever the capacity. *)
Lemma normalize_zero (seleniumResponse : seleniumResponse) :
  normalize seleniumResponse 0 = 0.
Proof.
  unfold normalize, Int64.of_int.
  set (g := Int64.wrap (MaxSession (Grid (Data seleniumResponse)))).
  pose proof (Int64Facts.wrap_range (MaxSession (Grid (Data seleniumResponse)))) as Hg.
  fold g in Hg. destruct (Z.gtb_spec g 0) as [Hpos|]; [|reflexivity].
  unfold Int64.in_range in Hg. change Int64.min_int with (- 2 ^ 63) in Hg.
  change Int64.max_int with (2 ^ 63 - 1) in Hg.
  unfold Int64.div, Int64.sub, Int64.add.
  replace (0 + g) with g by lia.
  rewrite (Int64Facts.wrap_in_range g) by (unfold Int64.in_range, Int64.min_int, Int64.max_int; lia).
  rewrite (Int64Facts.wrap_in_range (g - 1)) by (unfold Int64.in_range, Int64.min_int, Int64.max_int; lia).
  rewrite Z.quot_small by lia. reflexivity.
Qed.

(** C3. Normalization. The function adds [gridMaxSession - 1] to the raw
    count in 64 bits before it divides. On the grid that reports the
    largest int as its capacity and holds two matching queued requests the
    sum wraps to the smallest int64, and the function returns -1 where the
    quotient rounded up is 1. *)
Theorem normalization_wraps_at_largest_capacity :
  @json_Unmarshal_response Sample.library (Sample.body Sample.hugeGrid)
  = inl Sample.hugeGrid
  /\ representable Sample.hugeGrid
  /\ 0 < MaxSession (Grid (Data Sample.hugeGrid))
  /\ @rawCount Sample.library Sample.hugeGrid "chrome" "latest" = 2
  /\ spec_ceil 2 (MaxSession (Grid (Data Sample.hugeGrid))) = 1
  /\ normalize Sample.hugeGrid 2 = -1
  /\ @getCountFromSeleniumResponse Sample.library
       (Sample.body Sample.hugeGrid) "chrome" "latest" = (-1, None, []).
Proof.
  split; [vm_compute; reflexivity|].
  split; [fits|].
  split; [reflexivity|].
  split; [vm_compute; reflexivity|].
  split; [vm_compute; reflexivity|].
  split; vm_compute; reflexivity.
Qed.

(** ** Entries that do not decode *)

(** C4. Malformed-entry robustness: a response with a queued request that
    does not decode yields the same count, and no error, as the same
    response with that request removed. *)
Theorem malformed_queue_entry_is_skipped `{GoLibrary} (b b' : list byte)
    (browserName browserVersion : string) (maxSession : Z)
    (before after : list string) (sessions : list seleniumSession)
    (sessionQueueRequest : string) :
  json_Unmarshal_response b
  = inl (snapshot maxSession (before ++ sessionQueueRequest :: after) sessions) ->
  json_Unmarshal_response b'
  = inl (snapshot maxSession (before ++ after) sessions) ->
  malformed sessionQueueRequest ->
  fst (getCountFromSeleniumResponse b browserName browserVersion)
  = fst (getCountFromSeleniumResponse b' browserName browserVersion).
Proof.
  intros Hwith Hwithout Hbad.
  rewrite (getCountFromSeleniumResponse_decoded _ _ _ _ Hwith).
  rewrite (getCountFromSeleniumResponse_decoded _ _ _ _ Hwithout).
  cbn [fst]. rewrite !rawCount_wrap, filter_middle.
  rewrite (queueCounts_malformed _ _ _ Hbad), Nat.add_0_r.
  reflexivity.
Qed.

(** The sample grid with its broken request and without it. *)
Lemma malformed_queue_entry_is_skipped_witness :
  @json_Unmarshal_response Sample.library (Sample.body Sample.busyGrid)
  = inl (snapshot 2 ([Sample.chromeAny] ++ Sample.broken :: [Sample.chrome96])
                  [Sample.session "s1" Sample.chrome96])
  /\ @json_Unmarshal_response Sample.library (Sample.body Sample.busyGridClean)
     = inl (snapshot 2 ([Sample.chromeAny] ++ [Sample.chrome96])
                     [Sample.session "s1" Sample.chrome96])
  /\ @malformed Sample.library Sample.broken
  /\ fst (@getCountFromSeleniumResponse Sample.library
            (Sample.body Sample.busyGrid) "chrome" "latest")
     = fst (@getCountFromSeleniumResponse Sample.library
              (Sample.body Sample.busyGridClean) "chrome" "latest").
Proof.
  assert (Hwith : @json_Unmarshal_response Sample.library (Sample.body Sample.busyGrid)
                  = inl (snapshot 2 ([Sample.chromeAny] ++ Sample.broken :: [Sample.chrome96])
                                  [Sample.session "s1" Sample.chrome96]))
    by (vm_compute; reflexivity).
  assert (Hwithout : @json_Unmarshal_response Sample.library
                       (Sample.body Sample.busyGridClean)
                     = inl (snapshot 2 ([Sample.chromeAny] ++ [Sample.chrome96])
                                     [Sample.session "s1" Sample.chrome96]))
    by (vm_compute; reflexivity).
  assert (Hbad : @malformed Sample.library Sample.broken)
    by (eexists; vm_compute; reflexivity).
  exact (conj Hwith (conj Hwithout (conj Hbad
    (@malformed_queue_entry_is_skipped Sample.library _ _ "chrome" "latest" _ _ _ _ _
       Hwith Hwithout Hbad)))).
Defined.

(** C5. Prefix match: an entry that decodes to the target's browserName
    and to browserVersion 96.0.4664.45 is counted when the target version
    is 96 and is not counted when it is 97, as a queued request and as an
    active session alike. *)
Theorem version_96_0_4664_45_matches_96_not_97 `{GoLibrary}
    (browserName : string) (maxSession : Z) (st : scan)
    (sessionQueueRequest : string) (session : seleniumSession)
    (capability : capability) :
  parsesTo sessionQueueRequest capability ->
  Capabilities session = sessionQueueRequest ->
  BrowserName capability = browserName ->
  BrowserVersion capability = "96.0.4664.45" ->
  (queueRequestBody browserName "96" st sessionQueueRequest = countUp st
   /\ queueRequestBody browserName "97" st sessionQueueRequest = st
   /\ sessionBody browserName "96" st session = countUp st
   /\ sessionBody browserName "97" st session = st)
  /\ rawCount (snapshot maxSession [sessionQueueRequest] []) browserName "96" = 1
  /\ rawCount (snapshot maxSession [sessionQueueRequest] []) browserName "97" = 0
  /\ rawCount (snapshot maxSession [] [session]) browserName "96" = 1
  /\ rawCount (snapshot maxSession [] [session]) browserName "97" = 0.
Proof.
  unfold parsesTo. intros Hparses Hcaps Hname Hversion.
  assert (Hbodies :
    forall st,
      queueRequestBody browserName "96" st sessionQueueRequest = countUp st
      /\ queueRequestBody browserName "97" st sessionQueueRequest = st
      /\ sessionBody browserName "96" st session = countUp st
      /\ sessionBody browserName "97" st session = st).
  { intros st'. unfold queueRequestBody, sessionBody.
    rewrite Hcaps, Hparses, Hname, Hversion, String.eqb_refl.
    repeat split. }
  split; [apply Hbodies|].
  unfold rawCount, scanEntries. cbn [snapshot Data SessionsInfo SessionQueueRequests Sessions fold_left].
  destruct (Hbodies (mkScan 0 [])) as (-> & -> & -> & ->).
  repeat split.
Qed.

(** The queued request and the session of the sample grid that ask for
    chrome 96.0.4664.45. *)
Lemma version_96_0_4664_45_matches_96_not_97_witness :
  @parsesTo Sample.library Sample.chrome96 (mkCapability "chrome" "96.0.4664.45")
  /\ @rawCount Sample.library (snapshot 2 [Sample.chrome96] []) "chrome" "96" = 1
  /\ @rawCount Sample.library (snapshot 2 [Sample.chrome96] []) "chrome" "97" = 0
  /\ @rawCount Sample.library
       (snapshot 2 [] [Sample.session "s1" Sample.chrome96]) "chrome" "96" = 1
  /\ @rawCount Sample.library
       (snapshot 2 [] [Sample.session "s1" Sample.chrome96]) "chrome" "97" = 0.
Proof.
  assert (Hparses : @parsesTo Sample.library Sample.chrome96
                      (mkCapability "chrome" "96.0.4664.45"))
    by (vm_compute; reflexivity).
  exact (conj Hparses (proj2
    (@version_96_0_4664_45_matches_96_not_97 Sample.library "chrome" 2
       (@mkScan Sample.library 0 []) Sample.chrome96
       (Sample.session "s1" Sample.chrome96) (mkCapability "chrome" "96.0.4664.45")
       Hparses eq_refl eq_refl eq_refl))).
Defined.

(** When nothing decodes, a loop leaves the counter alone and logs once
    per entry. *)
Lemma loop_all_malformed `{GoLibrary} {A : Type} (body : scan -> A -> scan)
    (raw : A -> string) :
  (forall st a, malformed (raw a) ->
     count (body st a) = count st
     /\ length (logged (body st a)) = S (length (logged st))) ->
  forall entries st,
    Forall (fun a => malformed (raw a)) entries ->
    count (fold_left body entries st) = count st
    /\ length (logged (fold_left body entries st))
       = (length (logged st) + length entries)%nat.
Proof.
  intros Hbody entries. induction entries as [|a entries IH]; intros st Hall.
  - cbn. split; [reflexivity | lia].
  - apply Forall_cons in Hall as [Ha Hall]. cbn [fold_left length].
    destruct (IH (body st a) Hall) as [-> ->].
    destruct (Hbody st a Ha) as [-> ->]. split; [reflexivity | lia].
Qed.

Lemma queueRequestBody_malformed `{GoLibrary} (browserName browserVersion : string)
    (st : scan) (sessionQueueRequest : string) :
  malformed sessionQueueRequest ->
  count (queueRequestBody browserName browserVersion st sessionQueueRequest) = count st
  /\ length (logged (queueRequestBody browserName browserVersion st sessionQueueRequest))
     = S (length (logged st)).
Proof.
  unfold malformed, queueRequestBody. intros [err ->]. cbn.
  split; [reflexivity|]. rewrite List.length_app. cbn. lia.
Qed.

Lemma sessionBody_malformed `{GoLibrary} (browserName browserVersion : string)
    (st : scan) (session : seleniumSession) :
  malformed (Capabilities session) ->
  count (sessionBody browserName browserVersion st session) = count st
  /\ length (logged (sessionBody browserName browserVersion st session))
     = S (length (logged st)).
Proof.
  unfold malformed, sessionBody. intros [err ->]. cbn.
  split; [reflexivity|]. rewrite List.length_app. cbn. lia.
Qed.

(** C6. Over a decoded response the function never fails: whatever the
    capability strings hold, it returns a count and a nil error; and when
    no capability string decodes, the count is 0, the error is nil, and
    there is one log entry per queued request and per active session. *)
Theorem decoding_errors_of_entries_are_skipped `{GoLibrary} (b : list byte)
    (seleniumResponse : seleniumResponse) (browserName browserVersion : string) :
  json_Unmarshal_response b = inl seleniumResponse ->
  (exists v log,
     getCountFromSeleniumResponse b browserName browserVersion = (v, None, log))
  /\ (Forall malformed (SessionQueueRequests (SessionsInfo (Data seleniumResponse))) ->
      Forall (fun session => malformed (Capabilities session))
             (Sessions (SessionsInfo (Data seleniumResponse))) ->
      exists log,
        getCountFromSeleniumResponse b browserName browserVersion = (0, None, log)
        /\ length log
           = (length (SessionQueueRequests (SessionsInfo (Data seleniumResponse)))
              + length (Sessions (SessionsInfo (Data seleniumResponse))))%nat).
Proof.
  intros Hbody. rewrite (getCountFromSeleniumResponse_decoded _ _ _ _ Hbody).
  split; [eauto|]. intros Hqueue Hsessions.
  eexists. split.
  - unfold rawCount, scanEntries.
    destruct (loop_all_malformed _ Capabilities
                (sessionBody_malformed browserName browserVersion) _
                (fold_left (queueRequestBody browserName browserVersion)
                   (SessionQueueRequests (SessionsInfo (Data seleniumResponse)))
                   (mkScan 0 [])) Hsessions) as [-> _].
    destruct (loop_all_malformed _ (fun raw => raw)
                (queueRequestBody_malformed browserName browserVersion) _
                (mkScan 0 []) Hqueue) as [-> _].
    cbn [count]. now rewrite normalize_zero.
  - unfold scanEntries.
    destruct (loop_all_malformed _ Capabilities
                (sessionBody_malformed browserName browserVersion) _
                (fold_left (queueRequestBody browserName browserVersion)
                   (SessionQueueRequests (SessionsInfo (Data seleniumResponse)))
                   (mkScan 0 [])) Hsessions) as [_ ->].
    destruct (loop_all_malformed _ (fun raw => raw)
                (queueRequestBody_malformed browserName browserVersion) _
                (mkScan 0 []) Hqueue) as [_ ->].
    reflexivity.
Qed.

(** The sample grid on which no capability string decodes. *)
Lemma decoding_errors_of_entries_are_skipped_witness :
  @json_Unmarshal_response Sample.library (Sample.body Sample.brokenGrid)
  = inl Sample.brokenGrid
  /\ Forall (@malformed Sample.library)
            (SessionQueueRequests (SessionsInfo (Data Sample.brokenGrid)))
  /\ Forall (fun session => @malformed Sample.library (Capabilities session))
            (Sessions (SessionsInfo (Data Sample.brokenGrid)))
  /\ (exists v log,
        @getCountFromSeleniumResponse Sample.library
          (Sample.body Sample.brokenGrid) "chrome" "latest" = (v, None, log))
  /\ (exists log,
        @getCountFromSeleniumResponse Sample.library
          (Sample.body Sample.brokenGrid) "chrome" "latest" = (0, None, log)
        /\ length log = 3%nat).
Proof.
  assert (Hbody : @json_Unmarshal_response Sample.library (Sample.body Sample.brokenGrid)
                  = inl Sample.brokenGrid)
    by (vm_compute; reflexivity).
  assert (Hbad : @malformed Sample.library Sample.broken)
    by (eexists; vm_compute; reflexivity).
  assert (Hqueue : Forall (@malformed Sample.library)
                     (SessionQueueRequests (SessionsInfo (Data Sample.brokenGrid))))
    by (repeat constructor; exact Hbad).
  assert (Hsessions : Forall (fun session => @malformed Sample.library (Capabilities session))
                        (Sessions (SessionsInfo (Data Sample.brokenGrid))))
    by (repeat constructor; exact Hbad).
  pose proof (@decoding_errors_of_entries_are_skipped Sample.library _ _ "chrome" "latest"
                Hbody) as [Hsome Hall].
  exact (conj Hbody (conj Hqueue (conj Hsessions (conj Hsome (Hall Hqueue Hsessions))))).
Defined.

(** ** The query and the activity flag *)

(** The only error [getCountFromSeleniumResponse] returns is the one
    encoding/json gave for the body. *)
Lemma getCountFromSeleniumResponse_error `{GoLibrary} (b : list byte)
    (browserName browserVersion : string) (v : Z) (err : error)
    (log : list logEntry) :
  getCountFromSeleniumResponse b browserName browserVersion = (v, Some err, log) ->
  exists e, json_Unmarshal_response b = inr e /\ err = libError e.
Proof.
  unfold getCountFromSeleniumResponse, countFromResponse.
  destruct (json_Unmarshal_response b) as [response|e]; intros [= <- <- <-].
  now exists e.
Qed.

(** C7. Non-200 handling: when the grid answers with a status code other
    than 200, getSessionsCount returns -1 and an error whose message ends
    in that status code in decimal, from which the code can be read back;
    nothing is read, decoded, counted or logged. The error is built by
    errors.New, while an error for a body that does not decode is the one
    encoding/json returned: the two are never equal. *)
Theorem non_200_status_is_an_error `{GoLibrary} (s : seleniumGridScaler)
    (ctx : context) (body : list byte) (req : http_Request)
    (StatusCode : Z) (Body : io_ReadCloser) :
  json_Marshal statusQuery = inl body ->
  http_NewRequestWithContext ctx "POST" (url (metadata s)) body = inl req ->
  http_Client_Do (client s) req = inl (StatusCode, Body) ->
  StatusCode <> http_StatusOK ->
  getSessionsCount s ctx
  = (-1, Some (errors_New ("selenium grid returned " ++ fmt_d StatusCode)), [])
  /\ (forall other : Z,
        "selenium grid returned " ++ fmt_d other
        = "selenium grid returned " ++ fmt_d StatusCode -> other = StatusCode)
  /\ (forall b browserName browserVersion v err log,
        getCountFromSeleniumResponse b browserName browserVersion = (v, Some err, log) ->
        forall msg, err <> errors_New msg).
Proof.
  intros Hmarshal Hreq Hdo Hstatus. split; [|split].
  - unfold getSessionsCount. rewrite Hmarshal, Hreq, Hdo.
    destruct (Z.eqb_spec StatusCode http_StatusOK); [contradiction | reflexivity].
  - intros other Heq. now apply append_inj_l, fmt_d_inj in Heq.
  - intros b browserName browserVersion v err log Hcount.
    apply getCountFromSeleniumResponse_error in Hcount as (e & _ & ->).
    intros msg. discriminate.
Qed.

(** The sample grid answering 503. *)
Lemma non_200_status_is_an_error_witness :
  @json_Marshal Sample.library (@statusQuery)
  = inl (list_byte_of_string
           ("{" ++ Sample.jsonField "query"
                     (Sample.jsonString "{ grid { maxSession }, sessionsInfo { sessionQueueRequests, sessions { id, capabilities, nodeId } } }")
                ++ "}"))
  /\ 503 <> http_StatusOK
  /\ @getSessionsCount Sample.library
       (Sample.scaler "latest" (Sample.Answers 503 (Sample.body Sample.busyGrid))) tt
     = (-1, Some (@errors_New Sample.library "selenium grid returned 503"), []).
Proof.
  assert (Hmarshal : @json_Marshal Sample.library (@statusQuery)
    = inl (list_byte_of_string
             ("{" ++ Sample.jsonField "query"
                       (Sample.jsonString "{ grid { maxSession }, sessionsInfo { sessionQueueRequests, sessions { id, capabilities, nodeId } } }")
                  ++ "}")))
    by (vm_compute; reflexivity).
  assert (Hstatus : 503 <> http_StatusOK) by discriminate.
  exact (conj Hmarshal (conj Hstatus (proj1
    (@non_200_status_is_an_error Sample.library
       (Sample.scaler "latest" (Sample.Answers 503 (Sample.body Sample.busyGrid)))
       tt _ _ 503 (Sample.body Sample.busyGrid) Hmarshal eq_refl eq_refl Hstatus)))).
Defined.

(** C8. Activity: when the sessions count is computed, with value v,
    IsActive returns true if and only if v > 0, and a nil error; when the
    computation fails, IsActive returns false and the error. *)
Theorem IsActive_iff_count_positive `{GoLibrary} (s : seleniumGridScaler)
    (ctx : context) (v : Z) (err : option error) (log : list logEntry) :
  getSessionsCount s ctx = (v, err, log) ->
  match err with
  | None => exists active, IsActive s ctx = (active, None, log)
                           /\ (active = true <-> v > 0)
  | Some e => IsActive s ctx = (false, Some e, log)
  end.
Proof.
  intros Hcount. unfold IsActive. rewrite Hcount.
  destruct err as [e|]; [reflexivity|].
  exists (v >? 0). split; [reflexivity|].
  destruct (Z.gtb_spec v 0); split; intros; try lia; try discriminate; reflexivity.
Qed.

(** The sample grid answering the query, and the grid being down. *)
Lemma IsActive_iff_count_positive_witness :
  (exists log,
     @getSessionsCount Sample.library
       (Sample.scaler "latest" (Sample.Answers 200 (Sample.body Sample.busyGrid))) tt
     = (1, None, log)
     /\ exists active,
          @IsActive Sample.library
            (Sample.scaler "latest" (Sample.Answers 200 (Sample.body Sample.busyGrid))) tt
          = (active, None, log)
          /\ (active = true <-> 1 > 0))
  /\ (exists e,
        @getSessionsCount Sample.library (Sample.scaler "latest" Sample.Down) tt
        = (-1, Some e, [])
        /\ @IsActive Sample.library (Sample.scaler "latest" Sample.Down) tt
           = (false, Some e, [])).
Proof.
  split.
  - eexists. 
    assert (Hcount : @getSessionsCount Sample.library
              (Sample.scaler "latest" (Sample.Answers 200 (Sample.body Sample.busyGrid))) tt
            = (1, None,
               snd (@getSessionsCount Sample.library
                      (Sample.scaler "latest"
                         (Sample.Answers 200 (Sample.body Sample.busyGrid))) tt)))
      by (vm_compute; reflexivity).
    split; [exact Hcount|].
    exact (@IsActive_iff_count_positive Sample.library _ tt 1 None _ Hcount).
  - eexists.
    assert (Hcount : @getSessionsCount Sample.library (Sample.scaler "latest" Sample.Down) tt
            = (-1, Some (@libError Sample.library
                           (Sample.Refused "http://grid:4444/graphql")), []))
      by (vm_compute; reflexivity).
    split; [exact Hcount|].
    exact (@IsActive_iff_count_positive Sample.library _ tt (-1) (Some _) [] Hcount).
Defined.

(** ** Bounds on the result *)

(** Each entry moves the raw count by at most one: on a response Go can
    hold, the raw count lies between 0 and the number of entries. *)
Lemma rawCount_bounds `{GoLibrary} (seleniumResponse : seleniumResponse)
    (browserName browserVersion : string) :
  representable seleniumResponse ->
  0 <= rawCount seleniumResponse browserName browserVersion
    <= Z.of_nat (length (SessionQueueRequests (SessionsInfo (Data seleniumResponse)))
                 + length (Sessions (SessionsInfo (Data seleniumResponse)))).
Proof.
  destruct seleniumResponse as [[[maxSession] [queue sessions]]].
  intros Hfits. change (mkSeleniumResponse _) with (snapshot maxSession queue sessions) in *.
  rewrite rawCount_hits by assumption. cbn.
  pose proof (List.filter_length_le (queueCounts browserName browserVersion) queue).
  pose proof (List.filter_length_le (sessionCounts browserName browserVersion) sessions).
  lia.
Qed.

(** As long as the rounding does not leave 64 bits, the result lies
    between 0 and the number of entries. *)
Lemma result_bounds_without_overflow `{GoLibrary} (b : list byte)
    (seleniumResponse : seleniumResponse) (browserName browserVersion : string) :
  json_Unmarshal_response b = inl seleniumResponse ->
  representable seleniumResponse ->
  rawCount seleniumResponse browserName browserVersion
  + MaxSession (Grid (Data seleniumResponse)) - 1 <= Int64.max_int ->
  exists v log,
    getCountFromSeleniumResponse b browserName browserVersion = (v, None, log)
    /\ 0 <= v <= Z.of_nat (length (SessionQueueRequests (SessionsInfo (Data seleniumResponse)))
                           + length (Sessions (SessionsInfo (Data seleniumResponse)))).
Proof.
  intros Hbody Hfits Hsum.
  rewrite (getCountFromSeleniumResponse_decoded _ _ _ _ Hbody).
  do 2 eexists. split; [reflexivity|].
  pose proof (rawCount_bounds _ browserName browserVersion Hfits) as Hraw.
  destruct Hfits as [Hmax _].
  destruct (Z_lt_le_dec 0 (MaxSession (Grid (Data seleniumResponse)))) as [Hpos|Hnonpos].
  - destruct (normalize_round_up seleniumResponse _ Hmax Hpos (proj1 Hraw) Hsum) as [-> _].
    pose proof (Int64Facts.spec_ceil_bounds _ _ (proj1 Hraw) Hpos). lia.
  - rewrite normalize_unknown_capacity; [assumption|].
    unfold Int64.of_int. now rewrite Int64Facts.wrap_in_range.
Qed.

(** Without queued requests and without sessions the result is 0. *)
Lemma empty_grid_needs_nothing `{GoLibrary} (b : list byte) (maxSession : Z)
    (browserName browserVersion : string) :
  json_Unmarshal_response b = inl (snapshot maxSession [] []) ->
  getCountFromSeleniumResponse b browserName browserVersion = (0, None, []).
Proof.
  intros Hbody. rewrite (getCountFromSeleniumResponse_decoded _ _ _ _ Hbody).
  unfold rawCount, scanEntries. cbn [snapshot Data SessionsInfo SessionQueueRequests Sessions fold_left count logged].
  now rewrite normalize_zero.
Qed.

(** C9. Bounds of the result. Each entry is counted at most once, but the
    rounding is done in 64 bits: on the grid that reports the largest int
    as its capacity, with one matching queued request and two matching
    sessions, the sum of the raw count 3 and the capacity wraps, and the
    function returns -1, below the bound 0 and with a nil error. *)
Theorem result_negative_at_largest_capacity :
  @json_Unmarshal_response Sample.library (Sample.body Sample.hugeGridMixed)
  = inl Sample.hugeGridMixed
  /\ representable Sample.hugeGridMixed
  /\ @rawCount Sample.library Sample.hugeGridMixed "chrome" "latest" = 3
  /\ exists v,
       @getCountFromSeleniumResponse Sample.library
         (Sample.body Sample.hugeGridMixed) "chrome" "latest" = (v, None, [])
       /\ v < 0.
Proof.
  split; [vm_compute; reflexivity|].
  split; [fits|].
  split; [vm_compute; reflexivity|].
  exists (-1). split; [vm_compute; reflexivity | lia].
Qed.

(** ** The metadata *)

(** Every version starts with the empty string: an empty target version
    would match every version. *)
Lemma strings_HasPrefix_empty (s : string) : strings_HasPrefix s EmptyString = true.
Proof. apply strings_HasPrefix_spec. now exists s. Qed.

(** C10. Whenever parseSeleniumGridScalerMetadata succeeds, the
    browserVersion of the metadata is not the empty string: a key
    browserVersion that is absent, or present with an empty value, gives
    the default, latest, and any other value is kept. *)
Theorem parsed_browserVersion_is_never_empty `{GoLibrary} (config : ScalerConfig)
    (meta : seleniumGridScalerMetadata) (err : option error) :
  parseSeleniumGridScalerMetadata config = (Some meta, err) ->
  browserVersion meta <> EmptyString
  /\ (TriggerMetadata config !! "browserVersion" = None
      \/ TriggerMetadata config !! "browserVersion" = Some EmptyString ->
      browserVersion meta = DefaultBrowserVersion)
  /\ (forall val, TriggerMetadata config !! "browserVersion" = Some val ->
      val <> EmptyString -> browserVersion meta = val).
Proof.
  unfold parseSeleniumGridScalerMetadata. intros Hparse.
  destruct (TriggerMetadata config !! "url") as [u|]; [|discriminate].
  destruct (TriggerMetadata config !! "browserName") as [name|]; [|discriminate].
  set (version := match TriggerMetadata config !! "browserVersion" with
                  | Some val => if negb (String.eqb val EmptyString) then val
                                else DefaultBrowserVersion
                  | None => DefaultBrowserVersion
                  end) in Hparse.
  assert (Hmeta : browserVersion meta = version).
  { destruct (TriggerMetadata config !! "unsafeSsl") as [flag|].
    - destruct (strconv_ParseBool flag) as [parsed [e|]]; [discriminate|].
      now injection Hparse as <- _.
    - now injection Hparse as <- _. }
  rewrite Hmeta. unfold version. clear Hmeta Hparse version.
  destruct (TriggerMetadata config !! "browserVersion") as [val|].
  - destruct (String.eqb_spec val EmptyString) as [->|Hne]; cbn.
    + repeat split; try discriminate; congruence.
    + repeat split; try assumption; intuition congruence.
  - repeat split; try discriminate; congruence.
Qed.

(** A configuration whose browserVersion is present and empty. *)
Lemma parsed_browserVersion_is_never_empty_witness :
  @parseSeleniumGridScalerMetadata Sample.library
    (mkScalerConfig {[ "url" := "http://grid:4444/graphql"; "browserName" := "chrome";
                       "browserVersion" := EmptyString ]} 0)
  = (Some (mkMetadata "http://grid:4444/graphql" "chrome" 1 "latest" false 0), None)
  /\ browserVersion (mkMetadata "http://grid:4444/graphql" "chrome" 1 "latest" false 0)
     <> EmptyString.
Proof.
  assert (Hparse : @parseSeleniumGridScalerMetadata Sample.library
    (mkScalerConfig {[ "url" := "http://grid:4444/graphql"; "browserName" := "chrome";
                       "browserVersion" := EmptyString ]} 0)
    = (Some (mkMetadata "http://grid:4444/graphql" "chrome" 1 "latest" false 0), None))
    by (vm_compute; reflexivity).
  exact (conj Hparse (proj1
    (@parsed_browserVersion_is_never_empty Sample.library _ _ _ Hparse))).
Defined.

(** * Further properties *)

(** ** parseSeleniumGridScalerMetadata *)

(** X1. The parser returns either a metadata and a nil error, or no
    metadata and an error, never both and never neither; it succeeds
    exactly when url and browserName are present and unsafeSsl, if
    present, is one of the spellings strconv.ParseBool accepts. *)
Theorem parseSeleniumGridScalerMetadata_succeeds_iff `{GoLibrary} (config : ScalerConfig) :
  ((exists meta, parseSeleniumGridScalerMetadata config = (Some meta, None))
   \/ (exists err, parseSeleniumGridScalerMetadata config = (None, Some err)))
  /\ ((exists meta, parseSeleniumGridScalerMetadata config = (Some meta, None))
      <-> is_Some (TriggerMetadata config !! "url")
          /\ is_Some (TriggerMetadata config !! "browserName")
          /\ (forall val, TriggerMetadata config !! "unsafeSsl" = Some val ->
                          is_Some (parseBoolValue val))).
Proof.
  unfold parseSeleniumGridScalerMetadata, strconv_ParseBool.
  destruct (TriggerMetadata config !! "url") as [u|].
  2:{ split; [right; eauto|]. split.
      - intros [meta [=]].
      - intros [[x [=]] _]. }
  destruct (TriggerMetadata config !! "browserName") as [name|].
  2:{ split; [right; eauto|]. split.
      - intros [meta [=]].
      - intros (_ & [x [=]] & _). }
  destruct (TriggerMetadata config !! "unsafeSsl") as [flag|].
  - destruct (parseBoolValue flag) as [parsed|] eqn:Hflag.
    + split; [left; eauto|]. split; [|eauto].
      intros _. repeat split; eauto. intros val [= <-]. rewrite Hflag. eauto.
    + split; [right; eauto|]. split.
      * intros [meta [=]].
      * intros (_ & _ & Hssl). destruct (Hssl flag eq_refl) as [x Hx].
        rewrite Hflag in Hx. discriminate.
  - split; [left; eauto|]. split; [|eauto].
    intros _. repeat split; eauto. intros val [=].
Qed.

(** X2. What a successful parse holds: url and browserName are the
    configured values as they are (an empty value included), targetValue is
    1, scalerIndex is the index of the configuration, and unsafeSsl is
    false when the key is absent and the parsed flag otherwise. *)
Theorem parsed_metadata_fields `{GoLibrary} (config : ScalerConfig)
    (meta : seleniumGridScalerMetadata) (err : option error) :
  parseSeleniumGridScalerMetadata config = (Some meta, err) ->
  err = None
  /\ TriggerMetadata config !! "url" = Some (url meta)
  /\ TriggerMetadata config !! "browserName" = Some (browserName meta)
  /\ targetValue meta = 1
  /\ scalerIndex meta = ScalerIndex config
  /\ match TriggerMetadata config !! "unsafeSsl" with
     | None => unsafeSsl meta = false
     | Some val => parseBoolValue val = Some (unsafeSsl meta)
     end.
Proof.
  unfold parseSeleniumGridScalerMetadata, strconv_ParseBool.
  destruct (TriggerMetadata config !! "url") as [u|]; [|discriminate].
  destruct (TriggerMetadata config !! "browserName") as [name|]; [|discriminate].
  destruct (TriggerMetadata config !! "unsafeSsl") as [flag|].
  - destruct (parseBoolValue flag) as [parsed|]; [|discriminate].
    intros [= <- <-]. repeat split.
  - intros [= <- <-]. repeat split.
Qed.

(** A configuration with an empty url and the flag spelled T. *)
Lemma parsed_metadata_fields_witness :
  @parseSeleniumGridScalerMetadata Sample.library
    (SampleKeda.config {[ "url" := EmptyString; "browserName" := "chrome";
                          "unsafeSsl" := "T" ]})
  = (Some (mkMetadata EmptyString "chrome" 1 "latest" true 3), None)
  /\ (@None (@error Sample.library) = None
      /\ TriggerMetadata (SampleKeda.config {[ "url" := EmptyString; "browserName" := "chrome";
                                               "unsafeSsl" := "T" ]}) !! "url"
         = Some EmptyString).
Proof.
  assert (Hparse : @parseSeleniumGridScalerMetadata Sample.library
    (SampleKeda.config {[ "url" := EmptyString; "browserName" := "chrome";
                          "unsafeSsl" := "T" ]})
    = (Some (mkMetadata EmptyString "chrome" 1 "latest" true 3), None))
    by (vm_compute; reflexivity).
  pose proof (@parsed_metadata_fields Sample.library _ _ _ Hparse) as (Herr & Hurl & _).
  exact (conj Hparse (conj Herr Hurl)).
Defined.

(** X3. The order of the checks: a missing url is reported whatever else
    the configuration holds; with a url, a missing browserName is reported
    whatever unsafeSsl holds; with both, an unsafeSsl that
    strconv.ParseBool rejects is reported with the message of strconv
    after the words error parsing unsafeSsl. No metadata is returned in
    any of the three cases. *)
Theorem parse_errors_in_order `{GoLibrary} (config : ScalerConfig) :
  (TriggerMetadata config !! "url" = None ->
   parseSeleniumGridScalerMetadata config
   = (None, Some (errors_New "no selenium grid url given in metadata")))
  /\ (is_Some (TriggerMetadata config !! "url") ->
      TriggerMetadata config !! "browserName" = None ->
      parseSeleniumGridScalerMetadata config
      = (None, Some (errors_New "no browser name given in metadata")))
  /\ (is_Some (TriggerMetadata config !! "url") ->
      is_Some (TriggerMetadata config !! "browserName") ->
      forall val, TriggerMetadata config !! "unsafeSsl" = Some val ->
                  parseBoolValue val = None ->
      parseSeleniumGridScalerMetadata config
      = (None, Some (errors_New ("error parsing unsafeSsl: "
                                 ++ lib_Error (strconv_syntaxError "ParseBool" val))))).
Proof.
  unfold parseSeleniumGridScalerMetadata, strconv_ParseBool. split; [|split].
  - now intros ->.
  - intros [u ->]. now intros ->.
  - intros [u ->] [name ->] val -> ->. reflexivity.
Qed.

(** Nothing is configured but an unsafeSsl that is not a flag: the url is
    what is reported missing. *)
Lemma parse_errors_in_order_witness :
  TriggerMetadata (SampleKeda.config {[ "unsafeSsl" := "yes" ]}) !! "url" = None
  /\ @parseSeleniumGridScalerMetadata Sample.library
       (SampleKeda.config {[ "unsafeSsl" := "yes" ]})
     = (None, Some (@errors_New Sample.library "no selenium grid url given in metadata")).
Proof.
  assert (Hurl : TriggerMetadata (SampleKeda.config {[ "unsafeSsl" := "yes" ]}) !! "url"
                 = None)
    by (vm_compute; reflexivity).
  exact (conj Hurl
    (proj1 (@parse_errors_in_order Sample.library
              (SampleKeda.config {[ "unsafeSsl" := "yes" ]})) Hurl)).
Defined.

(** X4. The parser reads four keys and the index, nothing else: two
    configurations that agree on url, browserName, browserVersion,
    unsafeSsl and on the index parse to the same result. *)
Theorem parse_reads_four_keys `{GoLibrary} (config config' : ScalerConfig) :
  (forall key, In key ["url"; "browserName"; "browserVersion"; "unsafeSsl"] ->
               TriggerMetadata config !! key = TriggerMetadata config' !! key) ->
  ScalerIndex config = ScalerIndex config' ->
  parseSeleniumGridScalerMetadata config = parseSeleniumGridScalerMetadata config'.
Proof.
  intros Hkeys Hindex. unfold parseSeleniumGridScalerMetadata.
  rewrite (Hkeys "url"), (Hkeys "browserName"), (Hkeys "browserVersion"),
    (Hkeys "unsafeSsl"), Hindex by (cbn; tauto).
  reflexivity.
Qed.

(** A configuration and the same one with a key the scaler does not
    know. *)
Lemma parse_reads_four_keys_witness :
  (forall key, In key ["url"; "browserName"; "browserVersion"; "unsafeSsl"] ->
     TriggerMetadata (SampleKeda.config {[ "url" := SampleKeda.gridURL;
                                           "browserName" := "chrome" ]}) !! key
     = TriggerMetadata (SampleKeda.config {[ "url" := SampleKeda.gridURL;
                                             "browserName" := "chrome";
                                             "sessionBrowserName" := "edge" ]}) !! key)
  /\ @parseSeleniumGridScalerMetadata Sample.library
       (SampleKeda.config {[ "url" := SampleKeda.gridURL; "browserName" := "chrome" ]})
     = @parseSeleniumGridScalerMetadata Sample.library
         (SampleKeda.config {[ "url" := SampleKeda.gridURL; "browserName" := "chrome";
                               "sessionBrowserName" := "edge" ]}).
Proof.
  assert (Hkeys : forall key,
    In key ["url"; "browserName"; "browserVersion"; "unsafeSsl"] ->
    TriggerMetadata (SampleKeda.config {[ "url" := SampleKeda.gridURL;
                                          "browserName" := "chrome" ]}) !! key
    = TriggerMetadata (SampleKeda.config {[ "url" := SampleKeda.gridURL;
                                            "browserName" := "chrome";
                                            "sessionBrowserName" := "edge" ]}) !! key).
  { intros key [<-|[<-|[<-|[<-|[]]]]]; vm_compute; reflexivity. }
  exact (conj Hkeys
    (@parse_reads_four_keys Sample.library _ _ Hkeys eq_refl)).
Defined.

(** ** getCountFromSeleniumResponse *)

Lemma filter_length_Permutation {A : Type} (hit : A -> bool) (l l' : list A) :
  Permutation l l' -> length (List.filter hit l) = length (List.filter hit l').
Proof.
  induction 1 as [|a l l' _ IH|a a' l|l l' l'' _ IH _ IH']; cbn [List.filter].
  - reflexivity.
  - destruct (hit a); cbn [length]; now rewrite IH.
  - destruct (hit a), (hit a'); reflexivity.
  - now rewrite IH.
Qed.

Lemma countFromResponse_count `{GoLibrary} (maxSession : Z) (queue : list string)
    (sessions : list seleniumSession) (browserName browserVersion : string) :
  fst (countFromResponse (snapshot maxSession queue sessions) browserName browserVersion)
  = (normalize (snapshot maxSession queue sessions)
       (Int64.wrap
          (Z.of_nat (length (List.filter (queueCounts browserName browserVersion) queue)
                     + length (List.filter (sessionCounts browserName browserVersion)
                                           sessions)))),
     None).
Proof.
  unfold countFromResponse. cbn [fst].
  change (count (scanEntries (snapshot maxSession queue sessions) browserName browserVersion))
    with (rawCount (snapshot maxSession queue sessions) browserName browserVersion).
  now rewrite rawCount_wrap.
Qed.

(** X5. The count does not depend on the order of the entries: two decoded
    responses with the same capacity whose queued requests, and whose
    sessions, are the same up to order give the same count and error (only
    the order of the log differs). *)
Theorem count_ignores_order `{GoLibrary} (maxSession : Z)
    (queue queue' : list string) (sessions sessions' : list seleniumSession)
    (browserName browserVersion : string) :
  Permutation queue queue' ->
  Permutation sessions sessions' ->
  fst (countFromResponse (snapshot maxSession queue sessions) browserName browserVersion)
  = fst (countFromResponse (snapshot maxSession queue' sessions') browserName browserVersion).
Proof.
  intros Hqueue Hsessions. rewrite !countFromResponse_count.
  rewrite (filter_length_Permutation _ _ _ Hqueue).
  rewrite (filter_length_Permutation _ _ _ Hsessions).
  reflexivity.
Qed.

(** The queue of the sample grid, read from its end. *)
Lemma count_ignores_order_witness :
  Permutation [Sample.chromeAny; Sample.broken; Sample.chrome96]
              [Sample.chrome96; Sample.broken; Sample.chromeAny]
  /\ fst (@countFromResponse Sample.library
            (snapshot 2 [Sample.chromeAny; Sample.broken; Sample.chrome96]
                      [Sample.session "s1" Sample.chrome96]) "chrome" "latest")
     = fst (@countFromResponse Sample.library
              (snapshot 2 [Sample.chrome96; Sample.broken; Sample.chromeAny]
                        [Sample.session "s1" Sample.chrome96]) "chrome" "latest").
Proof.
  assert (Hqueue : Permutation [Sample.chromeAny; Sample.broken; Sample.chrome96]
                               [Sample.chrome96; Sample.broken; Sample.chromeAny]).
  { apply (Permutation_rev [Sample.chromeAny; Sample.broken; Sample.chrome96]). }
  exact (conj Hqueue
    (@count_ignores_order Sample.library 2 _ _ _ _ "chrome" "latest"
       Hqueue (Permutation_refl _))).
Defined.

Lemma queueCounts_other_name `{GoLibrary} (browserName browserVersion raw : string) :
  (forall capability, parsesTo raw capability -> BrowserName capability <> browserName) ->
  queueCounts browserName browserVersion raw = false.
Proof.
  unfold parsesTo, queueCounts, queueRequestBody. intros Hname.
  destruct (json_Unmarshal_capability _) as [capability|err]; [|reflexivity].
  destruct (String.eqb_spec (BrowserName capability) browserName) as [Heq|]; [|reflexivity].
  now destruct (Hname capability eq_refl).
Qed.

Lemma sessionCounts_other_name `{GoLibrary} (browserName browserVersion : string)
    (session : seleniumSession) :
  (forall capability, parsesTo (Capabilities session) capability ->
                      BrowserName capability <> browserName) ->
  sessionCounts browserName browserVersion session = false.
Proof.
  unfold parsesTo, sessionCounts, sessionBody. intros Hname.
  destruct (json_Unmarshal_capability _) as [capability|err]; [|reflexivity].
  destruct (String.eqb_spec (BrowserName capability) browserName) as [Heq|]; [|reflexivity].
  now destruct (Hname capability eq_refl).
Qed.

Lemma filter_none {A : Type} (hit : A -> bool) (l : list A) :
  (forall a, In a l -> hit a = false) -> List.filter hit l = [].
Proof.
  induction l as [|a l IH]; intros Hall; [reflexivity|]. cbn [List.filter].
  rewrite (Hall a) by now left. apply IH. intros a' Ha'. apply Hall. now right.
Qed.

(** X6. Entries for other browsers are never counted: when no queued
    request and no session decodes to the target's browserName, the result
    is 0 with a nil error, whatever the versions and the capacity are. *)
Theorem other_browsers_are_not_counted `{GoLibrary} (maxSession : Z)
    (queue : list string) (sessions : list seleniumSession)
    (browserName browserVersion : string) :
  (forall raw capability,
     In raw queue -> parsesTo raw capability -> BrowserName capability <> browserName) ->
  (forall session capability,
     In session sessions -> parsesTo (Capabilities session) capability ->
     BrowserName capability <> browserName) ->
  fst (countFromResponse (snapshot maxSession queue sessions) browserName browserVersion)
  = (0, None).
Proof.
  intros Hqueue Hsessions. rewrite countFromResponse_count.
  rewrite (filter_none (queueCounts browserName browserVersion) queue).
  2:{ intros raw Hin. apply queueCounts_other_name. intros capability. now apply Hqueue. }
  rewrite (filter_none (sessionCounts browserName browserVersion) sessions).
  2:{ intros session Hin. apply sessionCounts_other_name. intros capability.
      now apply Hsessions. }
  cbn [length Nat.add Z.of_nat]. change (Int64.wrap 0) with 0.
  now rewrite normalize_zero.
Qed.

(** The sample grid asked for a browser nobody requested. *)
Lemma other_browsers_are_not_counted_witness :
  (forall raw capability,
     In raw [Sample.chromeAny; Sample.broken; Sample.chrome96] ->
     @parsesTo Sample.library raw capability -> BrowserName capability <> "safari")
  /\ (forall session capability,
        In session [Sample.session "s1" Sample.chrome96] ->
        @parsesTo Sample.library (Capabilities session) capability ->
        BrowserName capability <> "safari")
  /\ fst (@countFromResponse Sample.library
            (snapshot 2 [Sample.chromeAny; Sample.broken; Sample.chrome96]
                      [Sample.session "s1" Sample.chrome96]) "safari" "latest")
     = (0, None).
Proof.
  assert (Hqueue : forall raw capability,
     In raw [Sample.chromeAny; Sample.broken; Sample.chrome96] ->
     @parsesTo Sample.library raw capability -> BrowserName capability <> "safari").
  { intros raw capability [<-|[<-|[<-|[]]]] Hparses; vm_compute in Hparses;
      try discriminate; injection Hparses as <-; discriminate. }
  assert (Hsessions : forall session capability,
     In session [Sample.session "s1" Sample.chrome96] ->
     @parsesTo Sample.library (Capabilities session) capability ->
     BrowserName capability <> "safari").
  { intros session capability [<-|[]] Hparses; vm_compute in Hparses;
      injection Hparses as <-; discriminate. }
  exact (conj Hqueue (conj Hsessions
    (@other_browsers_are_not_counted Sample.library 2 _ _ "safari" "latest"
       Hqueue Hsessions))).
Defined.

(** X7. An empty target version matches every version: with the target
    version empty, a decoded entry is counted exactly when its browserName
    is the target's, as a queued request and as a session. *)
Theorem empty_target_version_matches_all `{GoLibrary} (browserName : string)
    (st : scan) (raw : string) (session : seleniumSession) (capability : capability) :
  parsesTo raw capability ->
  Capabilities session = raw ->
  queueRequestBody browserName EmptyString st raw
  = (if String.eqb (BrowserName capability) browserName then countUp st else st)
  /\ sessionBody browserName EmptyString st session
     = (if String.eqb (BrowserName capability) browserName then countUp st else st).
Proof.
  unfold parsesTo, queueRequestBody, sessionBody. intros Hparses ->.
  rewrite Hparses, strings_HasPrefix_empty. split; reflexivity.
Qed.

(** The request of the sample grid for chrome 96.0.4664.45. *)
Lemma empty_target_version_matches_all_witness :
  @parsesTo Sample.library Sample.chrome96 (mkCapability "chrome" "96.0.4664.45")
  /\ @queueRequestBody Sample.library "chrome" EmptyString
       (@mkScan Sample.library 0 []) Sample.chrome96
     = @countUp Sample.library (@mkScan Sample.library 0 []).
Proof.
  assert (Hparses : @parsesTo Sample.library Sample.chrome96
                      (mkCapability "chrome" "96.0.4664.45"))
    by (vm_compute; reflexivity).
  exact (conj Hparses (proj1
    (@empty_target_version_matches_all Sample.library "chrome"
       (@mkScan Sample.library 0 []) Sample.chrome96
       (Sample.session "s1" Sample.chrome96) _ Hparses eq_refl))).
Defined.

(** What a loop adds to the log: one entry per entry that does not decode,
    in order. *)
Lemma queue_loop_logged `{GoLibrary} (browserName browserVersion : string)
    (queue : list string) (st : scan) :
  logged (fold_left (queueRequestBody browserName browserVersion) queue st)
  = (logged st
     ++ map (fun err => mkLogEntry (libError err)
               ("Error when unmarshaling session queue requests: " ++ lib_Error err))
            (decodeFailures queue))%list.
Proof.
  revert st. induction queue as [|raw queue IH]; intros st.
  - cbn. now rewrite List.app_nil_r.
  - cbn [fold_left]. rewrite IH. unfold decodeFailures. cbn [flat_map].
    fold (decodeFailures queue). unfold queueRequestBody, decodeFailure.
    destruct (json_Unmarshal_capability _) as [capability|err].
    + cbn [List.app]. f_equal.
      destruct (String.eqb _ _); [|reflexivity].
      destruct (strings_HasPrefix _ _); [reflexivity|].
      destruct (_ && _); reflexivity.
    + cbn [logError logged List.app map]. now rewrite <- List.app_assoc.
Qed.

Lemma session_loop_logged `{GoLibrary} (browserName browserVersion : string)
    (sessions : list seleniumSession) (st : scan) :
  logged (fold_left (sessionBody browserName browserVersion) sessions st)
  = (logged st
     ++ map (fun err => mkLogEntry (libError err)
               ("Error when unmarshaling sessions info: " ++ lib_Error err))
            (decodeFailures (map Capabilities sessions)))%list.
Proof.
  revert st. induction sessions as [|session sessions IH]; intros st.
  - cbn. now rewrite List.app_nil_r.
  - cbn [fold_left]. rewrite IH. unfold decodeFailures. cbn [map flat_map].
    fold (decodeFailures (map Capabilities sessions)).
    unfold sessionBody, decodeFailure.
    destruct (json_Unmarshal_capability _) as [capability|err].
    + cbn [List.app]. f_equal.
      destruct (String.eqb _ _); [|reflexivity].
      destruct (strings_HasPrefix _ _); [reflexivity|].
      destruct (String.eqb _ _); reflexivity.
    + cbn [logError logged List.app map]. now rewrite <- List.app_assoc.
Qed.

(** X8. The log of a run: one entry per capability string that does not
    decode, carrying the error of encoding/json and its message, those of
    the queued requests first and those of the sessions after, each in the
    order of the response. The log does not depend on the target browser. *)
Theorem log_has_one_entry_per_decoding_failure `{GoLibrary}
    (seleniumResponse : seleniumResponse) (browserName browserVersion : string) :
  snd (countFromResponse seleniumResponse browserName browserVersion)
  = (map (fun err => mkLogEntry (libError err)
            ("Error when unmarshaling session queue requests: " ++ lib_Error err))
         (decodeFailures (SessionQueueRequests (SessionsInfo (Data seleniumResponse))))
     ++ map (fun err => mkLogEntry (libError err)
               ("Error when unmarshaling sessions info: " ++ lib_Error err))
            (decodeFailures
               (map Capabilities (Sessions (SessionsInfo (Data seleniumResponse))))))%list.
Proof.
  unfold countFromResponse, scanEntries. cbn [snd].
  now rewrite session_loop_logged, queue_loop_logged.
Qed.

Lemma sessionBody_reads_capabilities `{GoLibrary} (browserName browserVersion : string)
    (st : scan) (session session' : seleniumSession) :
  Capabilities session = Capabilities session' ->
  sessionBody browserName browserVersion st session
  = sessionBody browserName browserVersion st session'.
Proof. unfold sessionBody. now intros ->. Qed.

(** X9. Of a session only the capabilities are read: two responses that
    differ in the id and nodeId of their sessions, but not in the
    capabilities, give the same count, error and log. *)
Theorem session_id_and_node_are_not_read `{GoLibrary} (maxSession : Z)
    (queue : list string) (sessions sessions' : list seleniumSession)
    (browserName browserVersion : string) :
  map Capabilities sessions = map Capabilities sessions' ->
  countFromResponse (snapshot maxSession queue sessions) browserName browserVersion
  = countFromResponse (snapshot maxSession queue sessions') browserName browserVersion.
Proof.
  intros Hcaps. unfold countFromResponse, scanEntries.
  cbn [snapshot Data SessionsInfo SessionQueueRequests Sessions Grid MaxSession].
  assert (Hloop : forall st,
    fold_left (sessionBody browserName browserVersion) sessions st
    = fold_left (sessionBody browserName browserVersion) sessions' st).
  { revert sessions' Hcaps.
    induction sessions as [|session sessions IH]; intros [|session' sessions'] Hcaps st;
      try discriminate; [reflexivity|].
    injection Hcaps as Hhead Htail. cbn [fold_left].
    rewrite (sessionBody_reads_capabilities _ _ _ _ _ Hhead). now apply IH. }
  rewrite Hloop.
  unfold normalize. reflexivity.
Qed.

(** The session of the sample grid under another id and on another
    node. *)
Lemma session_id_and_node_are_not_read_witness :
  map Capabilities [Sample.session "s1" Sample.chrome96]
  = map Capabilities [mkSeleniumSession "s9" Sample.chrome96 "node-7"]
  /\ @countFromResponse Sample.library
       (snapshot 2 [Sample.chromeAny] [Sample.session "s1" Sample.chrome96])
       "chrome" "latest"
     = @countFromResponse Sample.library
         (snapshot 2 [Sample.chromeAny] [mkSeleniumSession "s9" Sample.chrome96 "node-7"])
         "chrome" "latest".
Proof.
  assert (Hcaps : map Capabilities [Sample.session "s1" Sample.chrome96]
                  = map Capabilities [mkSeleniumSession "s9" Sample.chrome96 "node-7"])
    by reflexivity.
  exact (conj Hcaps
    (@session_id_and_node_are_not_read Sample.library 2 [Sample.chromeAny] _ _
       "chrome" "latest" Hcaps)).
Defined.

(** ** Normalization, without overflow *)

Lemma spec_ceil_cover (c g : Z) :
  0 < g -> c <= spec_ceil c g * g < c + g.
Proof.
  intros Hg. unfold spec_ceil.
  pose proof (Z.div_mod (- c) g ltac:(lia)) as E.
  pose proof (Z.mod_pos_bound (- c) g Hg) as B.
  nia.
Qed.

Lemma spec_ceil_mono (c c' g : Z) :
  0 < g -> c <= c' -> spec_ceil c g <= spec_ceil c' g.
Proof.
  intros Hg Hle.
  pose proof (spec_ceil_cover c g Hg). pose proof (spec_ceil_cover c' g Hg). nia.
Qed.

Lemma spec_ceil_succ (c g : Z) :
  0 < g -> spec_ceil (c + 1) g <= spec_ceil c g + 1.
Proof.
  intros Hg.
  pose proof (spec_ceil_cover c g Hg). pose proof (spec_ceil_cover (c + 1) g Hg). nia.
Qed.

(** The result on a response Go can hold, as long as the rounding stays
    within 64 bits: the raw count itself without a capacity, the raw count
    over the capacity rounded up with one. *)
Lemma result_without_overflow `{GoLibrary} (seleniumResponse : seleniumResponse)
    (browserName browserVersion : string) :
  representable seleniumResponse ->
  rawCount seleniumResponse browserName browserVersion
  + MaxSession (Grid (Data seleniumResponse)) - 1 <= Int64.max_int ->
  fst (fst (countFromResponse seleniumResponse browserName browserVersion))
  = if Z.ltb 0 (MaxSession (Grid (Data seleniumResponse)))
    then spec_ceil (rawCount seleniumResponse browserName browserVersion)
                   (MaxSession (Grid (Data seleniumResponse)))
    else rawCount seleniumResponse browserName browserVersion.
Proof.
  intros Hfits Hsum. unfold countFromResponse. cbn [fst].
  change (count (scanEntries seleniumResponse browserName browserVersion))
    with (rawCount seleniumResponse browserName browserVersion).
  pose proof (rawCount_bounds _ browserName browserVersion Hfits) as [Hraw _].
  destruct Hfits as [Hmax _].
  destruct (Z.ltb_spec 0 (MaxSession (Grid (Data seleniumResponse)))) as [Hpos|Hnonpos].
  - now destruct (normalize_round_up seleniumResponse _ Hmax Hpos Hraw Hsum) as [-> _].
  - apply normalize_unknown_capacity.
    unfold Int64.of_int. now rewrite Int64Facts.wrap_in_range.
Qed.

(** X10. With a capacity and without overflow the result is the least
    number of nodes that holds the matching entries: result times capacity
    is at least the raw count, and one node less would not do. *)
Theorem nodes_cover_the_demand `{GoLibrary} (seleniumResponse : seleniumResponse)
    (browserName browserVersion : string) :
  representable seleniumResponse ->
  0 < MaxSession (Grid (Data seleniumResponse)) ->
  rawCount seleniumResponse browserName browserVersion
  + MaxSession (Grid (Data seleniumResponse)) - 1 <= Int64.max_int ->
  let nodes := fst (fst (countFromResponse seleniumResponse browserName browserVersion)) in
  rawCount seleniumResponse browserName browserVersion
  <= nodes * MaxSession (Grid (Data seleniumResponse))
  /\ (nodes - 1) * MaxSession (Grid (Data seleniumResponse))
     < rawCount seleniumResponse browserName browserVersion.
Proof.
  intros Hfits Hpos Hsum nodes. unfold nodes.
  rewrite (result_without_overflow _ _ _ Hfits Hsum).
  destruct (Z.ltb_spec 0 (MaxSession (Grid (Data seleniumResponse)))); [|lia].
  pose proof (spec_ceil_cover (rawCount seleniumResponse browserName browserVersion)
                _ Hpos). nia.
Qed.

(** The sample grid: three matching entries on nodes of two sessions. *)
Lemma nodes_cover_the_demand_witness :
  representable Sample.busyGrid
  /\ 0 < MaxSession (Grid (Data Sample.busyGrid))
  /\ @rawCount Sample.library Sample.busyGrid "chrome" EmptyString
     + MaxSession (Grid (Data Sample.busyGrid)) - 1 <= Int64.max_int
  /\ (@rawCount Sample.library Sample.busyGrid "chrome" EmptyString
      <= fst (fst (@countFromResponse Sample.library Sample.busyGrid "chrome" EmptyString))
         * MaxSession (Grid (Data Sample.busyGrid))
      /\ (fst (fst (@countFromResponse Sample.library Sample.busyGrid "chrome" EmptyString))
          - 1) * MaxSession (Grid (Data Sample.busyGrid))
         < @rawCount Sample.library Sample.busyGrid "chrome" EmptyString).
Proof.
  assert (Hfits : representable Sample.busyGrid) by fits.
  assert (Hpos : 0 < MaxSession (Grid (Data Sample.busyGrid))) by reflexivity.
  assert (Hsum : @rawCount Sample.library Sample.busyGrid "chrome" EmptyString
                 + MaxSession (Grid (Data Sample.busyGrid)) - 1 <= Int64.max_int)
    by (vm_compute; discriminate).
  exact (conj Hfits (conj Hpos (conj Hsum
    (@nodes_cover_the_demand Sample.library Sample.busyGrid "chrome" EmptyString
       Hfits Hpos Hsum)))).
Defined.

(** X11. With a capacity of at most one session per node (zero and
    negative capacities included) the result is the raw count: every
    matching entry asks for a node of its own. No overflow can occur. *)
Theorem one_node_per_entry_at_capacity_one `{GoLibrary}
    (seleniumResponse : seleniumResponse) (browserName browserVersion : string) :
  representable seleniumResponse ->
  MaxSession (Grid (Data seleniumResponse)) <= 1 ->
  fst (countFromResponse seleniumResponse browserName browserVersion)
  = (rawCount seleniumResponse browserName browserVersion, None).
Proof.
  intros Hfits Hmax.
  pose proof (rawCount_bounds _ browserName browserVersion Hfits) as [Hraw Htotal].
  assert (Hlen : Z.of_nat (length (SessionQueueRequests (SessionsInfo (Data seleniumResponse)))
                           + length (Sessions (SessionsInfo (Data seleniumResponse))))
                 <= Int64.max_int) by apply Hfits.
  assert (Hsum : rawCount seleniumResponse browserName browserVersion
                 + MaxSession (Grid (Data seleniumResponse)) - 1 <= Int64.max_int) by lia.
  pose proof (result_without_overflow _ browserName browserVersion Hfits Hsum) as Hresult.
  destruct (countFromResponse seleniumResponse browserName browserVersion)
    as [[v err] log] eqn:Hrun.
  assert (Herr : err = None).
  { unfold countFromResponse in Hrun. now injection Hrun as _ <- _. }
  cbn [fst] in *. rewrite Hresult, Herr. f_equal.
  destruct (Z.ltb_spec 0 (MaxSession (Grid (Data seleniumResponse)))); [|reflexivity].
  replace (MaxSession (Grid (Data seleniumResponse))) with 1 by lia.
  unfold spec_ceil. rewrite Z.div_1_r. lia.
Qed.

(** A grid that reports no capacity. *)
Lemma one_node_per_entry_at_capacity_one_witness :
  representable (snapshot 0 [Sample.chromeAny; Sample.chrome96]
                          [Sample.session "s1" Sample.chrome96])
  /\ MaxSession (Grid (Data (snapshot 0 [Sample.chromeAny; Sample.chrome96]
                                      [Sample.session "s1" Sample.chrome96]))) <= 1
  /\ fst (@countFromResponse Sample.library
            (snapshot 0 [Sample.chromeAny; Sample.chrome96]
                      [Sample.session "s1" Sample.chrome96]) "chrome" "96")
     = (@rawCount Sample.library
          (snapshot 0 [Sample.chromeAny; Sample.chrome96]
                    [Sample.session "s1" Sample.chrome96]) "chrome" "96", None).
Proof.
  assert (Hfits : representable (snapshot 0 [Sample.chromeAny; Sample.chrome96]
                                          [Sample.session "s1" Sample.chrome96]))
    by fits.
  assert (Hmax : MaxSession (Grid (Data (snapshot 0 [Sample.chromeAny; Sample.chrome96]
                                                  [Sample.session "s1" Sample.chrome96])))
                 <= 1)
    by (vm_compute; discriminate).
  exact (conj Hfits (conj Hmax
    (@one_node_per_entry_at_capacity_one Sample.library _ "chrome" "96" Hfits Hmax))).
Defined.

(** X12. One more queued request never lowers the result and raises it by
    at most one, as long as the rounding of the larger response stays
    within 64 bits. *)
Theorem one_more_request_raises_by_at_most_one `{GoLibrary} (maxSession : Z)
    (before after : list string) (sessions : list seleniumSession)
    (sessionQueueRequest : string) (browserName browserVersion : string) :
  representable (snapshot maxSession (before ++ sessionQueueRequest :: after) sessions) ->
  rawCount (snapshot maxSession (before ++ sessionQueueRequest :: after) sessions)
           browserName browserVersion
  + maxSession - 1 <= Int64.max_int ->
  let smaller :=
    fst (fst (countFromResponse (snapshot maxSession (before ++ after) sessions)
                                browserName browserVersion)) in
  let larger :=
    fst (fst (countFromResponse
                (snapshot maxSession (before ++ sessionQueueRequest :: after) sessions)
                browserName browserVersion)) in
  smaller <= larger <= smaller + 1.
Proof.
  intros Hfits Hsum smaller larger.
  assert (Hfits' : representable (snapshot maxSession (before ++ after) sessions)).
  { revert Hfits. apply representable_shorter; [|lia].
    rewrite !List.length_app. cbn [length]. lia. }
  assert (Hraw : rawCount (snapshot maxSession (before ++ sessionQueueRequest :: after) sessions)
                          browserName browserVersion
                 = rawCount (snapshot maxSession (before ++ after) sessions)
                            browserName browserVersion
                   + (if queueCounts browserName browserVersion sessionQueueRequest
                      then 1 else 0)).
  { rewrite !rawCount_hits by assumption. rewrite filter_middle.
    destruct (queueCounts _ _ _); lia. }
  assert (Hsum' : rawCount (snapshot maxSession (before ++ after) sessions)
                           browserName browserVersion
                  + MaxSession (Grid (Data (snapshot maxSession (before ++ after) sessions)))
                  - 1 <= Int64.max_int).
  { cbn [snapshot Data Grid MaxSession]. rewrite Hraw in Hsum.
    destruct (queueCounts _ _ _); lia. }
  unfold smaller, larger.
  rewrite (result_without_overflow _ _ _ Hfits' Hsum').
  rewrite (result_without_overflow _ _ _ Hfits Hsum).
  cbn [snapshot Data Grid MaxSession]. rewrite Hraw.
  destruct (Z.ltb_spec 0 maxSession) as [Hpos|Hnonpos].
  - destruct (queueCounts _ _ _).
    + set (raw := rawCount (snapshot maxSession (before ++ after) sessions)
                           browserName browserVersion).
      assert (Hle : raw <= raw + 1) by lia.
      pose proof (spec_ceil_mono raw (raw + 1) maxSession Hpos Hle).
      pose proof (spec_ceil_succ raw maxSession Hpos).
      lia.
    + rewrite Z.add_0_r. lia.
  - destruct (queueCounts _ _ _); lia.
Qed.

(** The sample grid and its third queued request. *)
Lemma one_more_request_raises_by_at_most_one_witness :
  representable (snapshot 2 ([Sample.chromeAny; Sample.broken] ++ Sample.chrome96 :: [])
                          [Sample.session "s1" Sample.chrome96])
  /\ @rawCount Sample.library
       (snapshot 2 ([Sample.chromeAny; Sample.broken] ++ Sample.chrome96 :: [])
                 [Sample.session "s1" Sample.chrome96]) "chrome" "96"
     + 2 - 1 <= Int64.max_int
  /\ fst (fst (@countFromResponse Sample.library
                 (snapshot 2 ([Sample.chromeAny; Sample.broken] ++ [])
                           [Sample.session "s1" Sample.chrome96]) "chrome" "96"))
     <= fst (fst (@countFromResponse Sample.library
                    (snapshot 2 ([Sample.chromeAny; Sample.broken] ++ Sample.chrome96 :: [])
                              [Sample.session "s1" Sample.chrome96]) "chrome" "96"))
     <= fst (fst (@countFromResponse Sample.library
                    (snapshot 2 ([Sample.chromeAny; Sample.broken] ++ [])
                              [Sample.session "s1" Sample.chrome96]) "chrome" "96")) + 1.
Proof.
  assert (Hfits : representable
                    (snapshot 2 ([Sample.chromeAny; Sample.broken] ++ Sample.chrome96 :: [])
                              [Sample.session "s1" Sample.chrome96]))
    by fits.
  assert (Hsum : @rawCount Sample.library
                   (snapshot 2 ([Sample.chromeAny; Sample.broken] ++ Sample.chrome96 :: [])
                             [Sample.session "s1" Sample.chrome96]) "chrome" "96"
                 + 2 - 1 <= Int64.max_int)
    by (vm_compute; discriminate).
  exact (conj Hfits (conj Hsum
    (@one_more_request_raises_by_at_most_one Sample.library 2 _ _ _ _ "chrome" "96"
       Hfits Hsum))).
Defined.

(** ** getSessionsCount, IsActive and GetMetrics *)

(** The query when the grid answers 200 with a body that decodes. *)
Lemma getSessionsCount_answered `{GoLibrary} (s : seleniumGridScaler) (ctx : context)
    (body : list byte) (req : http_Request) (Body : io_ReadCloser) (b : list byte)
    (seleniumResponse : seleniumResponse) :
  json_Marshal statusQuery = inl body ->
  http_NewRequestWithContext ctx "POST" (url (metadata s)) body = inl req ->
  http_Client_Do (client s) req = inl (http_StatusOK, Body) ->
  ioutil_ReadAll Body = inl b ->
  json_Unmarshal_response b = inl seleniumResponse ->
  getSessionsCount s ctx
  = countFromResponse seleniumResponse (browserName (metadata s))
                      (browserVersion (metadata s)).
Proof.
  intros Hmarshal Hreq Hdo Hread Hbody. unfold getSessionsCount.
  rewrite Hmarshal, Hreq, Hdo, Hread. cbn [Z.eqb http_StatusOK Pos.eqb negb].
  unfold getCountFromSeleniumResponse. rewrite Hbody. reflexivity.
Qed.

(** The query when the grid answers with another status. *)
Lemma getSessionsCount_refused `{GoLibrary} (s : seleniumGridScaler) (ctx : context)
    (body : list byte) (req : http_Request) (StatusCode : Z) (Body : io_ReadCloser) :
  json_Marshal statusQuery = inl body ->
  http_NewRequestWithContext ctx "POST" (url (metadata s)) body = inl req ->
  http_Client_Do (client s) req = inl (StatusCode, Body) ->
  StatusCode <> http_StatusOK ->
  getSessionsCount s ctx
  = (-1, Some (errors_New ("selenium grid returned " ++ fmt_d StatusCode)), []).
Proof.
  intros Hmarshal Hreq Hdo Hstatus. unfold getSessionsCount.
  rewrite Hmarshal, Hreq, Hdo.
  destruct (Z.eqb_spec StatusCode http_StatusOK); [contradiction | reflexivity].
Qed.

(** X13. From the answer of the grid to the activity flag: when the grid
    answers 200 with a body that decodes to a response Go can hold, and
    the rounding stays within 64 bits, IsActive is true exactly when at
    least one entry matches the browser of the metadata, with a nil
    error. *)
Theorem IsActive_iff_some_entry_matches `{GoLibrary} (s : seleniumGridScaler)
    (ctx : context) (body : list byte) (req : http_Request) (Body : io_ReadCloser)
    (b : list byte) (seleniumResponse : seleniumResponse) :
  json_Marshal statusQuery = inl body ->
  http_NewRequestWithContext ctx "POST" (url (metadata s)) body = inl req ->
  http_Client_Do (client s) req = inl (http_StatusOK, Body) ->
  ioutil_ReadAll Body = inl b ->
  json_Unmarshal_response b = inl seleniumResponse ->
  representable seleniumResponse ->
  rawCount seleniumResponse (browserName (metadata s)) (browserVersion (metadata s))
  + MaxSession (Grid (Data seleniumResponse)) - 1 <= Int64.max_int ->
  fst (IsActive s ctx)
  = (rawCount seleniumResponse (browserName (metadata s)) (browserVersion (metadata s)) >? 0,
     None).
Proof.
  intros Hmarshal Hreq Hdo Hread Hbody Hfits Hsum. unfold IsActive.
  rewrite (getSessionsCount_answered _ _ _ _ _ _ _ Hmarshal Hreq Hdo Hread Hbody).
  pose proof (result_without_overflow _ _ _ Hfits Hsum) as Hresult.
  destruct (countFromResponse _ _ _) as [[v err] log] eqn:Hrun.
  assert (Herr : err = None).
  { unfold countFromResponse in Hrun. now injection Hrun as _ <- _. }
  subst err. cbn [fst] in *. f_equal. rewrite Hresult.
  set (raw := rawCount seleniumResponse (browserName (metadata s))
                       (browserVersion (metadata s))).
  destruct (Z.ltb_spec 0 (MaxSession (Grid (Data seleniumResponse)))) as [Hpos|]; [|reflexivity].
  pose proof (spec_ceil_cover raw _ Hpos) as Hcover.
  destruct (Z.gtb_spec (spec_ceil raw (MaxSession (Grid (Data seleniumResponse)))) 0);
    destruct (Z.gtb_spec raw 0); try reflexivity; nia.
Qed.

(** The sample grid answering the query of a scaler for chrome at
    latest. *)
Lemma IsActive_iff_some_entry_matches_witness :
  @json_Unmarshal_response Sample.library (Sample.body Sample.busyGrid)
  = inl Sample.busyGrid
  /\ representable Sample.busyGrid
  /\ fst (@IsActive Sample.library
            (Sample.scaler "latest" (Sample.Answers 200 (Sample.body Sample.busyGrid))) tt)
     = (@rawCount Sample.library Sample.busyGrid "chrome" "latest" >? 0, None).
Proof.
  assert (Hbody : @json_Unmarshal_response Sample.library (Sample.body Sample.busyGrid)
                  = inl Sample.busyGrid)
    by (vm_compute; reflexivity).
  assert (Hfits : representable Sample.busyGrid) by fits.
  assert (Hsum : @rawCount Sample.library Sample.busyGrid "chrome" "latest"
                 + MaxSession (Grid (Data Sample.busyGrid)) - 1 <= Int64.max_int)
    by (vm_compute; discriminate).
  exact (conj Hbody (conj Hfits
    (@IsActive_iff_some_entry_matches Sample.library
       (Sample.scaler "latest" (Sample.Answers 200 (Sample.body Sample.busyGrid))) tt
       _ _ (Sample.body Sample.busyGrid) (Sample.body Sample.busyGrid) Sample.busyGrid
       eq_refl eq_refl eq_refl eq_refl Hbody Hfits Hsum))).
Defined.

(** X14. Every failure of getSessionsCount looks the same to its caller:
    the count is -1 and nothing was logged; the error is either one a
    library call returned, handed over unchanged, or the message selenium
    grid returned followed by a status code other than 200. *)
Theorem getSessionsCount_failure `{GoLibrary} (s : seleniumGridScaler)
    (ctx : context) (v : Z) (err : error) (log : list logEntry) :
  getSessionsCount s ctx = (v, Some err, log) ->
  v = -1 /\ log = []
  /\ ((exists e, err = libError e)
      \/ (exists StatusCode, StatusCode <> http_StatusOK
            /\ err = errors_New ("selenium grid returned " ++ fmt_d StatusCode))).
Proof.
  unfold getSessionsCount.
  destruct (json_Marshal statusQuery) as [body|e];
    [|intros [= <- <- <-]; eauto 6].
  destruct (http_NewRequestWithContext _ _ _ _) as [req|e];
    [|intros [= <- <- <-]; eauto 6].
  destruct (http_Client_Do _ _) as [[StatusCode Body]|e];
    [|intros [= <- <- <-]; eauto 6].
  destruct (Z.eqb_spec StatusCode http_StatusOK) as [->|Hstatus]; cbn [negb].
  2:{ intros [= <- <- <-]. repeat split. right. eauto. }
  destruct (ioutil_ReadAll Body) as [b|e]; [|intros [= <- <- <-]; eauto 6].
  unfold getCountFromSeleniumResponse, countFromResponse.
  destruct (json_Unmarshal_response b) as [response|e]; [discriminate|].
  intros [= <- <- <-]. eauto 6.
Qed.

(** The sample grid being down. *)
Lemma getSessionsCount_failure_witness :
  @getSessionsCount Sample.library (Sample.scaler "latest" Sample.Down) tt
  = (-1, Some (@libError Sample.library (Sample.Refused "http://grid:4444/graphql")), [])
  /\ (-1 = -1 /\ @nil (@logEntry Sample.library) = []
      /\ ((exists e, @libError Sample.library (Sample.Refused "http://grid:4444/graphql")
                     = @libError Sample.library e)
          \/ (exists StatusCode, StatusCode <> http_StatusOK
                /\ @libError Sample.library (Sample.Refused "http://grid:4444/graphql")
                   = @errors_New Sample.library
                       ("selenium grid returned " ++ fmt_d StatusCode)))).
Proof.
  assert (Hrun : @getSessionsCount Sample.library (Sample.scaler "latest" Sample.Down) tt
                 = (-1, Some (@libError Sample.library
                                (Sample.Refused "http://grid:4444/graphql")), []))
    by (vm_compute; reflexivity).
  exact (conj Hrun (@getSessionsCount_failure Sample.library _ tt _ _ _ Hrun)).
Defined.


(** X16. What GetMetrics reports when the grid answers with a status other
    than 200: no metric, nothing logged, and an error built by fmt.Errorf
    whose message names the endpoint error and the status code. *)
Theorem GetMetrics_on_non_200 `{KedaEnvironment} (s : seleniumGridScaler)
    (ctx : context) (metricName : string) (metricSelector : labels_Selector)
    (body : list byte) (req : http_Request) (StatusCode : Z) (Body : io_ReadCloser) :
  json_Marshal statusQuery = inl body ->
  http_NewRequestWithContext ctx "POST" (url (metadata s)) body = inl req ->
  http_Client_Do (client s) req = inl (StatusCode, Body) ->
  StatusCode <> http_StatusOK ->
  GetMetrics s ctx metricName metricSelector
  = ([],
     Some (errors_New ("error requesting selenium grid endpoint: "
                       ++ ("selenium grid returned " ++ fmt_d StatusCode))),
     []).
Proof.
  intros Hmarshal Hreq Hdo Hstatus. unfold GetMetrics.
  now rewrite (getSessionsCount_refused _ _ _ _ _ _ Hmarshal Hreq Hdo Hstatus).
Qed.

(** The sample grid answering 404. *)
Lemma GetMetrics_on_non_200_witness :
  404 <> http_StatusOK
  /\ @GetMetrics Sample.library SampleKeda.environment
       (Sample.scaler "latest" (Sample.Answers 404 [])) tt "s3-seleniumgrid-chrome" tt
     = ([],
        Some (@errors_New Sample.library
                "error requesting selenium grid endpoint: selenium grid returned 404"),
        []).
Proof.
  assert (Hstatus : 404 <> http_StatusOK) by discriminate.
  exact (conj Hstatus
    (@GetMetrics_on_non_200 Sample.library SampleKeda.environment
       (Sample.scaler "latest" (Sample.Answers 404 [])) tt "s3-seleniumgrid-chrome" tt
       _ _ 404 [] eq_refl eq_refl eq_refl Hstatus)).
Defined.

(** ** NewSeleniumGridScaler *)

(** The parser never returns a metadata together with an error, nor
    neither of them. *)
Lemma parse_result_shape `{GoLibrary} (config : ScalerConfig) :
  (exists meta, parseSeleniumGridScalerMetadata config = (Some meta, None))
  \/ (exists err, parseSeleniumGridScalerMetadata config = (None, Some err)).
Proof.
  unfold parseSeleniumGridScalerMetadata.
  destruct (TriggerMetadata config !! "url") as [u|]; [|right; eauto].
  destruct (TriggerMetadata config !! "browserName") as [name|]; [|right; eauto].
  destruct (TriggerMetadata config !! "unsafeSsl") as [flag|]; [|left; eauto].
  destruct (strconv_ParseBool flag) as [parsed [e|]]; [right | left]; eauto.
Qed.

(** The version a successful parse holds. *)
Lemma parse_browserVersion `{GoLibrary} (config : ScalerConfig)
    (meta : seleniumGridScalerMetadata) (err : option error) :
  parseSeleniumGridScalerMetadata config = (Some meta, err) ->
  browserVersion meta
  = match TriggerMetadata config !! "browserVersion" with
    | Some val => if negb (String.eqb val EmptyString) then val else DefaultBrowserVersion
    | None => DefaultBrowserVersion
    end
  /\ targetValue meta = 1.
Proof.
  unfold parseSeleniumGridScalerMetadata.
  destruct (TriggerMetadata config !! "url") as [u|]; [|discriminate].
  destruct (TriggerMetadata config !! "browserName") as [name|]; [|discriminate].
  destruct (TriggerMetadata config !! "unsafeSsl") as [flag|].
  - destruct (strconv_ParseBool flag) as [parsed [e|]]; [discriminate|].
    now intros [= <- _].
  - now intros [= <- _].
Qed.

(** X17. The constructor never dereferences a nil metadata: it returns,
    either a scaler and a nil error or no scaler and an error; and it
    returns a scaler exactly when the metric type is accepted and the
    metadata parses. *)
Theorem NewSeleniumGridScaler_succeeds_iff `{KedaEnvironment} (config : ScalerConfig)
    (GlobalHTTPTimeout : time_Duration) :
  ((exists scaler, NewSeleniumGridScaler config GlobalHTTPTimeout = Some (Some scaler, None))
   \/ (exists err, NewSeleniumGridScaler config GlobalHTTPTimeout = Some (None, Some err)))
  /\ ((exists scaler, NewSeleniumGridScaler config GlobalHTTPTimeout
                      = Some (Some scaler, None))
      <-> snd (GetMetricTargetType config) = None
          /\ exists meta, parseSeleniumGridScalerMetadata config = (Some meta, None)).
Proof.
  unfold NewSeleniumGridScaler.
  destruct (GetMetricTargetType config) as [metricType [e|]]; cbn [snd].
  - split; [right; eauto|]. split; [intros [scaler [=]] | intros [[=] _]].
  - destruct (parse_result_shape config) as [[meta ->]|[err ->]].
    + split; [left; eauto|]. split; eauto.
    + split; [right; eauto|]. split; [intros [scaler [=]] | intros [_ [meta [=]]]].
Qed.

(** X18. The errors of the constructor: a metric type that is not accepted
    is reported first, whatever the metadata holds, after the words error
    getting scaler metric type; otherwise the error of the parser is
    reported after the words error parsing selenium grid metadata. Both
    are built by fmt.Errorf and carry the message only. *)
Theorem NewSeleniumGridScaler_errors `{KedaEnvironment} (config : ScalerConfig)
    (GlobalHTTPTimeout : time_Duration) :
  (forall metricType e,
     GetMetricTargetType config = (metricType, Some e) ->
     NewSeleniumGridScaler config GlobalHTTPTimeout
     = Some (None, Some (errors_New ("error getting scaler metric type: " ++ Error e))))
  /\ (forall metricType meta e,
        GetMetricTargetType config = (metricType, None) ->
        parseSeleniumGridScalerMetadata config = (meta, Some e) ->
        NewSeleniumGridScaler config GlobalHTTPTimeout
        = Some (None,
                Some (errors_New ("error parsing selenium grid metadata: " ++ Error e)))).
Proof.
  unfold NewSeleniumGridScaler. split.
  - now intros metricType e ->.
  - intros metricType meta e -> ->. now destruct meta.
Qed.

(** A configuration without url, where the metric type is accepted and
    where it is not. *)
Lemma NewSeleniumGridScaler_errors_witness :
  @NewSeleniumGridScaler Sample.library SampleKeda.environment
    (SampleKeda.config {[ "browserName" := "chrome" ]}) 3000
  = Some (None,
          Some (@errors_New Sample.library
                  "error parsing selenium grid metadata: no selenium grid url given in metadata"))
  /\ @NewSeleniumGridScaler Sample.library SampleKeda.strictEnvironment
       (SampleKeda.config {[ "browserName" := "chrome" ]}) 3000
     = Some (None,
             Some (@errors_New Sample.library
                     "error getting scaler metric type: unsupported metric type")).
Proof.
  split.
  - exact (proj2 (@NewSeleniumGridScaler_errors Sample.library SampleKeda.environment
                    (SampleKeda.config {[ "browserName" := "chrome" ]}) 3000)
                 "AverageValue" None
                 (@errors_New Sample.library "no selenium grid url given in metadata")
                 eq_refl eq_refl).
  - exact (proj1 (@NewSeleniumGridScaler_errors Sample.library SampleKeda.strictEnvironment
                    (SampleKeda.config {[ "browserName" := "chrome" ]}) 3000)
                 EmptyString (@errors_New Sample.library "unsupported metric type")
                 eq_refl).
Defined.

(** X19. What a constructed scaler holds: the metric type that was
    accepted, the metadata the parser returned, whose browserVersion is not
    empty and whose targetValue is 1, and a client made from the timeout
    and from the unsafeSsl flag of that metadata. *)
Theorem NewSeleniumGridScaler_scaler `{KedaEnvironment} (config : ScalerConfig)
    (GlobalHTTPTimeout : time_Duration) (scaler : seleniumGridScaler)
    (err : option error) :
  NewSeleniumGridScaler config GlobalHTTPTimeout = Some (Some scaler, err) ->
  err = None
  /\ metricType scaler = fst (GetMetricTargetType config)
  /\ parseSeleniumGridScalerMetadata config = (Some (metadata scaler), None)
  /\ client scaler
     = kedautil_CreateHTTPClient GlobalHTTPTimeout (unsafeSsl (metadata scaler))
  /\ browserVersion (metadata scaler) <> EmptyString
  /\ targetValue (metadata scaler) = 1.
Proof.
  unfold NewSeleniumGridScaler.
  destruct (GetMetricTargetType config) as [metricType' [e|]]; [discriminate|].
  destruct (parseSeleniumGridScalerMetadata config) as [[meta|] [e|]] eqn:Hparse;
    try discriminate.
  intros [= <- <-]. cbn [metricType metadata client fst].
  destruct (parse_browserVersion _ _ _ Hparse) as [Hversion Htarget].
  repeat split; try assumption.
  rewrite Hversion.
  destruct (TriggerMetadata config !! "browserVersion") as [val|]; [|discriminate].
  destruct (String.eqb_spec val EmptyString); cbn; [discriminate | assumption].
Qed.

(** A configuration that asks to skip the certificate check. *)
Lemma NewSeleniumGridScaler_scaler_witness :
  @NewSeleniumGridScaler Sample.library SampleKeda.environment
    (SampleKeda.config {[ "url" := SampleKeda.gridURL; "browserName" := "chrome";
                          "unsafeSsl" := "true" ]}) 3000
  = Some (Some (@mkScaler Sample.library "AverageValue"
                  (mkMetadata SampleKeda.gridURL "chrome" 1 "latest" true 3)
                  (SampleKeda.client true)),
          None)
  /\ browserVersion (mkMetadata SampleKeda.gridURL "chrome" 1 "latest" true 3)
     <> EmptyString.
Proof.
  assert (Hnew : @NewSeleniumGridScaler Sample.library SampleKeda.environment
    (SampleKeda.config {[ "url" := SampleKeda.gridURL; "browserName" := "chrome";
                          "unsafeSsl" := "true" ]}) 3000
    = Some (Some (@mkScaler Sample.library "AverageValue"
                    (mkMetadata SampleKeda.gridURL "chrome" 1 "latest" true 3)
                    (SampleKeda.client true)),
            None))
    by (vm_compute; reflexivity).
  pose proof (@NewSeleniumGridScaler_scaler Sample.library SampleKeda.environment
                _ _ _ _ Hnew) as (_ & _ & _ & _ & Hversion & _).
  exact (conj Hnew Hversion).
Defined.
